(** * alfabank_sbp: a shallow embedding of the SBP client and its properties

    The development follows [alfabank_sbp/exceptions.py] and
    [alfabank_sbp/client.py].  Python values are embedded as a small
    inductive type, dictionaries as insertion-ordered association lists, and
    the effects of the client (HTTP POSTs through the session, [time.sleep],
    raised exceptions) as a state-and-exception monad over a trace of
    events.

    Representation choices:
    - a Python [str] is a Rocq [string] holding the UTF-8 encoding of the
      text, so that [.encode('utf-8')] is the passage from [string] to a
      list of bytes;
    - JSON numbers are integers (the API's codes and amounts); floating
      point values are outside the model;
    - the limits of the Python library are those of CPython 3.11 with its
      default settings: [str] of an integer of more than 4300 digits and
      [time.sleep] of more than 9223372036 seconds raise;
    - the signing key is an object with one method, [sign], standing for
      [key.sign(data, PKCS1v15(), SHA256())];
    - the network is an oracle [server] which, given the number of requests
      already posted and the request, tells what [session.post] produces;
      the body of a response is given by what [response.json()] makes of
      it, a value or its decoding error. *)

From Stdlib Require Import ZArith List String Ascii Bool Lia.
From Stdlib.Strings Require Import Byte.
From Stdlib Require Import DecimalString DecimalZ DecimalPos.
Import ListNotations.

Local Open Scope string_scope.
Local Open Scope list_scope.
Local Open Scope Z_scope.

Set Warnings "-register-all".

(** ** Python values *)

Inductive pyval : Type :=
| PNone
| PBool (b : bool)
| PInt (z : Z)
| PStr (s : string)
| PList (l : list pyval)
| PDict (d : list (string * pyval)).

Definition pydict : Type := list (string * pyval).
Definition bytes : Type := list byte.

(** The decimal text of an integer: what [str(n)] returns when it returns. *)
Definition py_str_int (z : Z) : string := NilZero.string_of_int (Z.to_int z).

(** The number of decimal digits of an integer, and the default limit
    ([sys.get_int_max_str_digits()]) beyond which [str(n)] raises. *)
Definition decimal_digits (z : Z) : nat := String.length (py_str_int (Z.abs z)).

Definition int_max_str_digits : nat := 4300.

Definition str_too_long (z : Z) : bool :=
  (int_max_str_digits <? decimal_digits z)%nat.

(** [str(b).lower()] for a [bool]. *)
Definition py_str_bool_lower (b : bool) : string :=
  if b then "true" else "false".

(** Lifting of [Optional[str]] arguments to values. *)
Definition opt_str (o : option string) : pyval :=
  match o with
  | Some s => PStr s
  | None => PNone
  end.

(** Truth value of an [Optional[str]]: [None] and [""] are falsy. *)
Definition truthy (o : option string) : bool :=
  match o with
  | Some s => negb (s =? "")%string
  | None => false
  end.

(** [any(l)] on a list of [Optional[str]]. *)
Definition py_any (l : list (option string)) : bool := existsb truthy l.

(** [v == n] for an integer literal [n]: [bool] is a subtype of [int] in
    Python, so [False == 0] and [True == 1]; no other value of the model
    equals an integer. *)
Definition py_eq_int (v : pyval) (n : Z) : bool :=
  match v with
  | PInt z => z =? n
  | PBool b => (if b then 1 else 0) =? n
  | _ => false
  end.

(** [v == s] for a string literal [s]. *)
Definition py_eq_str (v : pyval) (s : string) : bool :=
  match v with
  | PStr t => (t =? s)%string
  | _ => false
  end.

(** [v in [s1, ..., sn]] for string literals. *)
Definition py_in_strs (v : pyval) (l : list string) : bool :=
  existsb (py_eq_str v) l.

(** ** Dictionaries: insertion-ordered, one entry per key *)

Fixpoint dict_get (d : pydict) (k : string) : option pyval :=
  match d with
  | [] => None
  | (k', v) :: r => if (k' =? k)%string then Some v else dict_get r k
  end.

(** [d[k] = v]: an existing key keeps its position, a new key goes last. *)
Fixpoint dict_set (d : pydict) (k : string) (v : pyval) : pydict :=
  match d with
  | [] => [(k, v)]
  | (k', v') :: r =>
      if (k' =? k)%string then (k', v) :: r else (k', v') :: dict_set r k v
  end.

(** [{**d, **items}]. *)
Definition dict_update (d : pydict) (items : pydict) : pydict :=
  fold_left (fun acc kv => dict_set acc (fst kv) (snd kv)) items d.

(** A dictionary display [{k1: v1, ..., kn: vn}]. *)
Definition py_dict (items : list (string * pyval)) : pydict :=
  dict_update [] items.

Definition keys (d : pydict) : list string := map fst d.

(** [d.get(k, default)]. *)
Definition dict_get_default (d : pydict) (k : string) (default : pyval) : pyval :=
  match dict_get d k with
  | Some v => v
  | None => default
  end.

(** ** [json.dumps(v, ensure_ascii=False)] *)

Definition hex_digit (n : N) : ascii :=
  match n with
  | 0%N => "0" | 1%N => "1" | 2%N => "2" | 3%N => "3"
  | 4%N => "4" | 5%N => "5" | 6%N => "6" | 7%N => "7"
  | 8%N => "8" | 9%N => "9" | 10%N => "a" | 11%N => "b"
  | 12%N => "c" | 13%N => "d" | 14%N => "e" | _ => "f"
  end%char.

(** The escape of one character: the quote, the backslash and the control
    characters below 0x20 are escaped, every other character (all bytes of
    a non-ASCII character included) is copied. *)
Definition escape_char (c : ascii) : string :=
  let n := N_of_ascii c in
  if (n =? 34)%N then String "\"%char (String c "")
  else if (n =? 92)%N then "\\"
  else if (n =? 10)%N then "\n"
  else if (n =? 13)%N then "\r"
  else if (n =? 9)%N then "\t"
  else if (n =? 8)%N then "\b"
  else if (n =? 12)%N then "\f"
  else if (n <? 32)%N then
    ("\u00" ++ String (hex_digit (n / 16)) (String (hex_digit (n mod 16)) ""))%string
  else String c "".

Fixpoint escape_string (s : string) : string :=
  match s with
  | EmptyString => EmptyString
  | String c r => (escape_char c ++ escape_string r)%string
  end.

(** The double quote character. *)
Definition dquote : ascii := "034"%char.

Definition encode_basestring (s : string) : string :=
  String dquote (escape_string s ++ String dquote "")%string.

Fixpoint json_dumps (v : pyval) : string :=
  match v with
  | PNone => "null"
  | PBool b => if b then "true" else "false"
  | PInt z => py_str_int z
  | PStr s => encode_basestring s
  | PList l =>
      "[" ++
      (fix items (l : list pyval) : string :=
         match l with
         | [] => ""
         | x :: r =>
             json_dumps x ++
             match r with [] => "" | _ :: _ => ", " ++ items r end
         end) l ++ "]"
  | PDict d =>
      "{" ++
      (fix items (d : list (string * pyval)) : string :=
         match d with
         | [] => ""
         | (k, x) :: r =>
             encode_basestring k ++ ": " ++ json_dumps x ++
             match r with [] => "" | _ :: _ => ", " ++ items r end
         end) d ++ "}"
  end%string.

(** [s.encode('utf-8')]. *)
Definition encode_utf8 (s : string) : bytes := list_byte_of_string s.

(** ** [base64.b64encode] *)

Definition b64_alphabet : bytes :=
  list_byte_of_string
    "ABCDEFGHIJKLMNOPQRSTUVWXYZabcdefghijklmnopqrstuvwxyz0123456789+/".

Definition b64_digit (n : N) : byte := nth (N.to_nat n) b64_alphabet x00.

(** The padding character [=]. *)
Definition b64_pad : byte := x3d.

Fixpoint b64encode (l : bytes) : bytes :=
  match l with
  | [] => []
  | [a] =>
      let n := Byte.to_N a in
      [b64_digit (n / 4); b64_digit ((n mod 4) * 16); b64_pad; b64_pad]
  | [a; b] =>
      let n := (Byte.to_N a * 256 + Byte.to_N b)%N in
      [b64_digit (n / 1024); b64_digit ((n / 16) mod 64);
       b64_digit ((n mod 16) * 4); b64_pad]
  | a :: b :: c :: r =>
      let n := (Byte.to_N a * 65536 + Byte.to_N b * 256 + Byte.to_N c)%N in
      b64_digit (n / 262144) :: b64_digit ((n / 4096) mod 64)
        :: b64_digit ((n / 64) mod 64) :: b64_digit (n mod 64)
        :: b64encode r
  end%N.

(** ** exceptions.py *)

(** The exception object: [self.code] and [self.message].  (The text handed
    to [Exception.__init__] is a rendering of the two and is not kept.) *)
Record AlfaBankSBPClientError : Type := {
  code : pyval;
  message : pyval
}.

(** What a [raise] can carry, by the class of the exception raised: the
    client's own exception, and the exceptions of Python and of the HTTP
    library that the client's code can meet.  A constructor names the class
    of the object, not its base classes: [ExcValueError] is an exception of
    class [ValueError] itself, while the JSON decoding error of the HTTP
    library, which derives from [ValueError], and its errors on a malformed
    URL, which do too, are [ExcJSONDecodeError] and [ExcOther].  [ExcOther]
    is an exception of any other class of Python or of the HTTP library,
    given by the name of the class. *)
Inductive exn : Type :=
| ExcClient (e : AlfaBankSBPClientError)
| ExcTypeError
| ExcValueError
| ExcOverflowError
| ExcAttributeError
| ExcHTTPError (status_code : Z)
| ExcConnectionError
| ExcJSONDecodeError
| ExcOther (class_name : string).

(** A call of the class [AlfaBankSBPClientError] on positional arguments.
    [__init__(self, code, message)] has two required positional parameters and no defaults: a call
    with any other number of arguments raises [TypeError] and builds no
    exception object. *)
Definition AlfaBankSBPClientError_call (args : list pyval) : exn :=
  match args with
  | [c; m] => ExcClient {| code := c; message := m |}
  | _ => ExcTypeError
  end.

(** [except AlfaBankSBPClientError]: the class derives from [Exception]
    directly and nothing derives from it, so no exception of another class
    matches the clause. *)
Definition isinstance_AlfaBankSBPClientError (e : exn) : bool :=
  match e with
  | ExcClient _ => true
  | _ => false
  end.

(** ** The world: requests posted and sleeps taken, in order *)

Inductive header_value : Type :=
| HStr (s : string)
| HBytes (b : bytes).

Record request : Type := {
  req_url : string;
  req_headers : list (string * header_value);
  req_data : bytes
}.

(** [EvPost r] is a call of [session.post] with the request [r], whatever
    comes of it; [EvSleep s] is a sleep of [s] seconds that was taken. *)
Inductive event : Type :=
| EvPost (r : request)
| EvSleep (seconds : Z).

Definition world : Type := list event.

Definition is_post (e : event) : bool :=
  match e with
  | EvPost _ => true
  | EvSleep _ => false
  end.

Definition is_sleep (e : event) : bool := negb (is_post e).

Definition count_posts (w : world) : nat := List.length (filter is_post w).

(** What [session.post] produces: a connection failure
    ([requests.ConnectionError]); a response, with its status code and the
    value [response.json()] yields ([None] when the body is not JSON); or
    an exception of another class (of the HTTP library, such as
    [MissingSchema] for a URL without scheme, or of the system, such as
    [OSError] for a missing certificate file), given by the name of its
    class. *)
Inductive http_outcome : Type :=
| ConnectionFailed
| Response (status_code : Z) (json : option pyval)
| PostRaises (class_name : string).

(** ** The monad of the client's code *)

Inductive outcome (A : Type) : Type :=
| Return (a : A)
| Raise (e : exn).

Arguments Return {A} a.
Arguments Raise {A} e.

Definition M (A : Type) : Type := world -> outcome A * world.

Definition ret {A} (a : A) : M A := fun w => (Return a, w).

Definition raise {A} (e : exn) : M A := fun w => (Raise e, w).

Definition bind {A B} (m : M A) (k : A -> M B) : M B :=
  fun w =>
    match m w with
    | (Return a, w') => k a w'
    | (Raise e, w') => (Raise e, w')
    end.

(** [try: body except <clause> as e: handler e]. *)
Definition try_except {A} (body : M A) (clause : exn -> bool)
    (handler : exn -> M A) : M A :=
  fun w =>
    match body w with
    | (Return a, w') => (Return a, w')
    | (Raise e, w') => if clause e then handler e w' else (Raise e, w')
    end.

Declare Scope py_scope.
Delimit Scope py_scope with py.
Notation "x <- c1 ;; c2" := (bind c1 (fun x => c2))
  (at level 61, c1 at next level, right associativity) : py_scope.
Notation "c1 ;; c2" := (bind c1 (fun _ => c2))
  (at level 61, right associativity) : py_scope.
Local Open Scope py_scope.

(** The longest sleep, in seconds, that fits the clock of [time.sleep]
    (a signed 64-bit count of nanoseconds). *)
Definition time_sleep_max : Z := 9223372036.

(** [time.sleep(seconds)] for an integer: a number of seconds that does not
    fit the clock is an [OverflowError], a negative one a [ValueError]. *)
Definition time_sleep (seconds : Z) : M unit :=
  fun w =>
    if (seconds <? - time_sleep_max) || (time_sleep_max <? seconds)
    then (Raise ExcOverflowError, w)
    else if seconds <? 0 then (Raise ExcValueError, w)
    else (Return tt, w ++ [EvSleep seconds]).

(** [str(n)], evaluated for its failure: a [ValueError] when the integer
    has more digits than the limit.  (Its value is [py_str_int n].) *)
Definition py_str (z : Z) : M string :=
  if str_too_long z then raise ExcValueError else ret (py_str_int z).

(** [str(amount) if amount is not None else None]. *)
Definition py_str_opt (amount : option Z) : M (option string) :=
  match amount with
  | Some a => s <- py_str a ;; ret (Some s)
  | None => ret None
  end.

(** [response.raise_for_status()]: the HTTP library raises for the status
    codes 400 to 599. *)
Definition raise_for_status (status_code : Z) : M unit :=
  if (400 <=? status_code) && (status_code <? 600)
  then raise (ExcHTTPError status_code)
  else ret tt.

(** [response.json()]. *)
Definition response_json (body : option pyval) : M pyval :=
  match body with
  | Some v => ret v
  | None => raise ExcJSONDecodeError
  end.

(** [v.get(k, default)]: only a dictionary has the method. *)
Definition py_get (v : pyval) (k : string) (default : pyval) : M pyval :=
  match v with
  | PDict d => ret (dict_get_default d k default)
  | _ => raise ExcAttributeError
  end.

(** ** client.py *)

(** The loaded signing key, with its method [sign(data, PKCS1v15(),
    SHA256())]. *)
Record private_key : Type := {
  sign : bytes -> bytes
}.

(** The client object.  The session's certificate settings and the paths
    of the key files play no part in what follows and are left out. *)
Record AlfaBankSBPClient : Type := {
  base_url : string;
  term_no : string;
  cert_alias : string;
  _private_key : private_key
}.

(** [s.rstrip('/')]. *)
Fixpoint rstrip_slash (s : string) : string :=
  match s with
  | EmptyString => EmptyString
  | String c r =>
      let r' := rstrip_slash r in
      if (r' =? "")%string && (c =? "/")%char then EmptyString
      else String c r'
  end.

(** [AlfaBankSBPClient.__init__]; [key] is what [_load_private_key] read
    from [signing_key_path]. *)
Definition AlfaBankSBPClient_init (base_url term_no cert_alias : string)
    (key : private_key) : AlfaBankSBPClient :=
  {| base_url := rstrip_slash base_url;
     term_no := term_no;
     cert_alias := cert_alias;
     _private_key := key |}.

Definition _sign_data (self : AlfaBankSBPClient) (data : bytes) : bytes :=
  b64encode (sign (_private_key self) data).

Definition _build_request_data (self : AlfaBankSBPClient) (command : string)
    (optional_params : pydict) : pydict :=
  dict_update
    (py_dict [("command", PStr command); ("TermNo", PStr (term_no self))])
    optional_params.

(** *** The request data of each operation

    For each public method, the dictionary it hands to [_send_request]:
    the [params] it assembles, passed through [_build_request_data].  The
    text of an amount is [py_str_int]; the methods below raise where
    [str(amount)] does, before the dictionary is built. *)

Definition get_qr_code_data (self : AlfaBankSBPClient)
    (amount : Z) (currency qrc_type : string)
    (payment_purpose qr_ttl notification_url redirect_url width height
     order_number message_id sender_fio sender_id sender_bank_bic
     subscription_service_id subscription_service_name : option string)
    : pydict :=
  let params := py_dict
    [("qrcType", PStr qrc_type);
     ("amount", PStr (py_str_int amount));
     ("currency", PStr currency);
     ("paymentPurpose", opt_str payment_purpose);
     ("qrTtl", opt_str qr_ttl);
     ("redirectUrl", opt_str redirect_url);
     ("width", opt_str width);
     ("height", opt_str height);
     ("orderNumber", opt_str order_number);
     ("messageID", opt_str message_id);
     ("subscriptionServiceId", opt_str subscription_service_id);
     ("subscriptionServiceName", opt_str subscription_service_name)] in
  let params :=
    if py_any [notification_url; sender_fio; sender_id; sender_bank_bic]
    then dict_set params "queryData"
           (PDict (py_dict
              [("notificationUrl", opt_str notification_url);
               ("SenderFIO", opt_str sender_fio);
               ("SenderID", opt_str sender_id);
               ("SenderBankBIC", opt_str sender_bank_bic)]))
    else params in
  _build_request_data self "GetQRCd" params.

Definition get_qr_status_data (self : AlfaBankSBPClient)
    (qrc_id payrrn message_id : option string) : pydict :=
  let params := py_dict
    [("qrcId", opt_str qrc_id);
     ("payrrn", opt_str payrrn);
     ("messageID", opt_str message_id)] in
  _build_request_data self "GetQRCstatus" params.

(** [str(amount) if amount is not None else None]. *)
Definition opt_amount (amount : option Z) : pyval :=
  match amount with
  | Some a => PStr (py_str_int a)
  | None => PNone
  end.

(** [str(return_rest_amount).lower() if return_rest_amount is not None
    else None]. *)
Definition opt_flag (return_rest_amount : option bool) : pyval :=
  match return_rest_amount with
  | Some b => PStr (py_str_bool_lower b)
  | None => PNone
  end.

Definition get_reversal_data_data (self : AlfaBankSBPClient)
    (qrc_id payrrn trx_id trx_dt : option string) (amount : option Z)
    (currency message_id : option string) (return_rest_amount : option bool)
    : pydict :=
  let params := py_dict
    [("qrcId", opt_str qrc_id);
     ("payrrn", opt_str payrrn);
     ("trxId", opt_str trx_id);
     ("trxDT", opt_str trx_dt);
     ("amount", opt_amount amount);
     ("currency", opt_str currency);
     ("messageID", opt_str message_id);
     ("ReturnRestAmount", opt_flag return_rest_amount)] in
  _build_request_data self "GetQRCreversalData" params.

Definition perform_reversal_data (self : AlfaBankSBPClient)
    (qrc_id payrrn trx_id trx_dt : option string) (amount : option Z)
    (currency message_id notification_url : option string)
    (return_rest_amount : option bool) : pydict :=
  let params := py_dict
    [("qrcId", opt_str qrc_id);
     ("payrrn", opt_str payrrn);
     ("trxId", opt_str trx_id);
     ("trxDT", opt_str trx_dt);
     ("amount", opt_amount amount);
     ("currency", opt_str currency);
     ("messageID", opt_str message_id);
     ("ReturnRestAmount", opt_flag return_rest_amount);
     ("queryData",
      PDict (py_dict [("notificationUrl", opt_str notification_url)]))] in
  _build_request_data self "QRCreversal" params.

Definition get_reversal_status_data (self : AlfaBankSBPClient)
    (payrrn original_trx_id trx_id message_id : option string) : pydict :=
  _build_request_data self "GetQRCreversalStatus"
    (py_dict
       [("payrrn", opt_str payrrn);
        ("originalTrxId", opt_str original_trx_id);
        ("trxId", opt_str trx_id);
        ("messageID", opt_str message_id)]).

Definition get_reversal_history_data (self : AlfaBankSBPClient)
    (payrrn : string) : pydict :=
  _build_request_data self "GetQRCreversalHistory"
    (py_dict [("payrrn", PStr payrrn)]).

Section Client.

(** The network: the outcome of the [n]-th POST (counting from 0) as a
    function of the request. *)
Variable server : nat -> request -> http_outcome.

(** [self.session.post(url, headers=headers, data=data)]. *)
Definition session_post (url : string)
    (headers : list (string * header_value)) (data : bytes)
    : M (Z * option pyval) :=
  fun w =>
    let r := {| req_url := url; req_headers := headers; req_data := data |} in
    match server (count_posts w) r with
    | ConnectionFailed => (Raise ExcConnectionError, w ++ [EvPost r])
    | Response status_code body => (Return (status_code, body), w ++ [EvPost r])
    | PostRaises class_name => (Raise (ExcOther class_name), w ++ [EvPost r])
    end.

Definition _send_request (self : AlfaBankSBPClient) (data : pydict)
    (endpoint : string) : M pyval :=
  let data := encode_utf8 (json_dumps (PDict data)) in
  let headers :=
    [("Content-Type", HStr "application/x-www-form-urlencoded");
     ("Authorization", HBytes (_sign_data self data));
     ("key-name", HStr (cert_alias self))] in
  response <- session_post (base_url self ++ "/" ++ endpoint)%string
                headers data ;;
  raise_for_status (fst response) ;;
  result <- response_json (snd response) ;;
  error_code <- py_get result "ErrorCode" PNone ;;
  if negb (py_eq_int error_code 0) then
    error_code <- py_get result "ErrorCode" PNone ;;
    msg <- py_get result "message" (PStr "Неизвестная ошибка") ;;
    raise (AlfaBankSBPClientError_call [error_code; msg])
  else ret result.

Definition get_qr_code (self : AlfaBankSBPClient)
    (amount : Z) (currency qrc_type : string)
    (payment_purpose qr_ttl notification_url redirect_url width height
     order_number message_id sender_fio sender_id sender_bank_bic
     subscription_service_id subscription_service_name : option string)
    : M pyval :=
  py_str amount ;;
  _send_request self
    (get_qr_code_data self amount currency qrc_type payment_purpose qr_ttl
       notification_url redirect_url width height order_number message_id
       sender_fio sender_id sender_bank_bic subscription_service_id
       subscription_service_name) "".

Definition get_qr_status (self : AlfaBankSBPClient)
    (qrc_id payrrn message_id : option string) : M pyval :=
  if negb (truthy qrc_id || truthy payrrn) then
    raise (AlfaBankSBPClientError_call [PStr "Требуется qrcId или payrrn"])
  else
    _send_request self (get_qr_status_data self qrc_id payrrn message_id) "".

Definition get_reversal_data (self : AlfaBankSBPClient)
    (qrc_id payrrn trx_id trx_dt : option string) (amount : option Z)
    (currency message_id : option string) (return_rest_amount : option bool)
    : M pyval :=
  if negb (truthy qrc_id || truthy payrrn || truthy trx_id) then
    raise (AlfaBankSBPClientError_call
             [PStr "Требуется qrcId, payrrn или trxId"])
  else
    py_str_opt amount ;;
    _send_request self
      (get_reversal_data_data self qrc_id payrrn trx_id trx_dt amount
         currency message_id return_rest_amount) "".

Definition perform_reversal (self : AlfaBankSBPClient)
    (qrc_id payrrn trx_id trx_dt : option string) (amount : option Z)
    (currency message_id notification_url : option string)
    (return_rest_amount : option bool) : M pyval :=
  if negb (truthy qrc_id || truthy payrrn || truthy trx_id) then
    raise (AlfaBankSBPClientError_call
             [PStr "-1"; PStr "Требуется qrcId, payrrn или trxId"])
  else
    py_str_opt amount ;;
    _send_request self
      (perform_reversal_data self qrc_id payrrn trx_id trx_dt amount
         currency message_id notification_url return_rest_amount) "".

Definition get_reversal_status (self : AlfaBankSBPClient)
    (payrrn original_trx_id trx_id message_id : option string) : M pyval :=
  if negb (truthy payrrn || truthy original_trx_id) then
    raise (AlfaBankSBPClientError_call
             [PStr "Требуется payrrn или originalTrxId"])
  else if negb (truthy trx_id || truthy message_id) then
    raise (AlfaBankSBPClientError_call [PStr "Требуется trxId или messageID"])
  else
    _send_request self
      (get_reversal_status_data self payrrn original_trx_id trx_id
         message_id) "".

Definition get_reversal_history (self : AlfaBankSBPClient) (payrrn : string)
    : M pyval :=
  _send_request self (get_reversal_history_data self payrrn) "".

(** One iteration of the loop of [poll_qr_status]: [Some result] when the
    body executes [return result], [None] when it runs to its end and the
    loop goes on. *)
Definition poll_attempt (self : AlfaBankSBPClient)
    (qrc_id payrrn : option string) (interval_seconds : Z)
    : M (option pyval) :=
  try_except
    (result <- get_qr_status self qrc_id payrrn None ;;
     status <- py_get result "status" PNone ;;
     if py_in_strs status ["ACWP"; "RJCT"] then ret (Some result)
     else (time_sleep (Z.max interval_seconds 10) ;; ret None))
    isinstance_AlfaBankSBPClientError
    (fun e => time_sleep (Z.max interval_seconds 10) ;; ret None).

(** [for attempt in range(n)]; falling off the end of the function returns
    [None]. *)
Fixpoint poll_loop (self : AlfaBankSBPClient)
    (qrc_id payrrn : option string) (interval_seconds : Z) (n : nat)
    : M pyval :=
  match n with
  | O => ret PNone
  | S n' =>
      r <- poll_attempt self qrc_id payrrn interval_seconds ;;
      match r with
      | Some result => ret result
      | None => poll_loop self qrc_id payrrn interval_seconds n'
      end
  end.

Definition poll_qr_status (self : AlfaBankSBPClient)
    (qrc_id payrrn : option string) (max_attempts interval_seconds : Z)
    : M pyval :=
  if negb (truthy qrc_id || truthy payrrn) then
    raise (AlfaBankSBPClientError_call [PStr "Требуется qrcId или payrrn"])
  else
    poll_loop self qrc_id payrrn interval_seconds (Z.to_nat max_attempts).

End Client.

(** ** Vocabulary of the properties *)

(** The first header of a given name. *)
Fixpoint header_get (h : list (string * header_value)) (k : string)
    : option header_value :=
  match h with
  | [] => None
  | (k', v) :: r => if (k' =? k)%string then Some v else header_get r k
  end.

(** The request that [_send_request self data endpoint] posts. *)
Definition request_of (self : AlfaBankSBPClient) (data : pydict)
    (endpoint : string) : request :=
  let body := encode_utf8 (json_dumps (PDict data)) in
  {| req_url := (base_url self ++ "/" ++ endpoint)%string;
     req_headers :=
       [("Content-Type", HStr "application/x-www-form-urlencoded");
        ("Authorization", HBytes (_sign_data self body));
        ("key-name", HStr (cert_alias self))];
     req_data := body |}.

(** The status codes for which [raise_for_status] raises. *)
Definition http_error (status_code : Z) : bool :=
  (400 <=? status_code) && (status_code <? 600).

(** The error-code field of a parsed response is absent or differs from 0. *)
Definition error_code_nonzero (d : pydict) : bool :=
  match dict_get d "ErrorCode" with
  | None => true
  | Some v => negb (py_eq_int v 0)
  end.

(** The server answered with a mapping whose error code is 0. *)
Definition success_body (o : http_outcome) : option pydict :=
  match o with
  | Response st (Some (PDict d)) =>
      if http_error st || error_code_nonzero d then None else Some d
  | _ => None
  end.

(** The server answered with a mapping whose error code is absent or not 0. *)
Definition api_error_body (o : http_outcome) : option pydict :=
  match o with
  | Response st (Some (PDict d)) =>
      if negb (http_error st) && error_code_nonzero d then Some d else None
  | _ => None
  end.

(** The exception object [_send_request] builds from an error mapping. *)
Definition api_error_of (d : pydict) : AlfaBankSBPClientError :=
  {| code := dict_get_default d "ErrorCode" PNone;
     message := dict_get_default d "message" (PStr "Неизвестная ошибка") |}.

(** A transport failure: no connection, an HTTP status of the 4xx and
    5xx classes, or another exception raised by the post; with the
    exception that is raised for it. *)
Definition transport_failure (o : http_outcome) : option exn :=
  match o with
  | ConnectionFailed => Some ExcConnectionError
  | Response st _ => if http_error st then Some (ExcHTTPError st) else None
  | PostRaises class_name => Some (ExcOther class_name)
  end.

(** The status field of a mapping is one of the two final ones. *)
Definition is_final (d : pydict) : bool :=
  py_in_strs (dict_get_default d "status" PNone) ["ACWP"; "RJCT"].


(** A status query answered with a status that is not final. *)
Definition answers_pending (o : http_outcome) : bool :=
  match success_body o with
  | Some d => negb (is_final d)
  | None => false
  end.

(** A status query answered with an API error. *)
Definition answers_api_error (o : http_outcome) : bool :=
  match api_error_body o with
  | Some _ => true
  | None => false
  end.

(** The attempt neither ends the poll nor escapes it. *)
Definition non_terminal (o : http_outcome) : bool :=
  answers_pending o || answers_api_error o.

(** What [_send_request] makes of the transport's outcome. *)
Definition reply_of (o : http_outcome) : outcome pyval :=
  match o with
  | ConnectionFailed => Raise ExcConnectionError
  | PostRaises class_name => Raise (ExcOther class_name)
  | Response st body =>
      if http_error st then Raise (ExcHTTPError st)
      else match body with
           | None => Raise ExcJSONDecodeError
           | Some (PDict d) =>
               if error_code_nonzero d then Raise (ExcClient (api_error_of d))
               else Return (PDict d)
           | Some _ => Raise ExcAttributeError
           end
  end.

(** The request of the status query that [poll_qr_status] repeats. *)
Definition status_request (self : AlfaBankSBPClient)
    (qrc_id payrrn : option string) : request :=
  request_of self (get_qr_status_data self qrc_id payrrn None) "".

(** [k] rounds of the poll that did not end it: a request, then a sleep of
    [m] seconds. *)
Fixpoint cycles (r : request) (m : Z) (k : nat) : list event :=
  match k with
  | O => []
  | S k' => EvPost r :: EvSleep m :: cycles r m k'
  end.

(** The shape of a poll's trace: every request but possibly the last is
    followed at once by a sleep of [m] seconds, and nothing else occurs. *)
Fixpoint alternates (m : Z) (t : list event) : bool :=
  match t with
  | [] => true
  | EvPost _ :: t' =>
      match t' with
      | [] => true
      | EvSleep s :: t'' => (s =? m) && alternates m t''
      | EvPost _ :: _ => false
      end
  | EvSleep _ :: _ => false
  end.

(** Every request of [t] comes at least [floor] seconds of sleep after the
    request before it; [since] is the sleep accumulated since the last
    request, [None] when there was none yet. *)
Fixpoint min_gap_ok (floor : Z) (since : option Z) (t : list event) : bool :=
  match t with
  | [] => true
  | EvSleep s :: t' => min_gap_ok floor (option_map (Z.add s) since) t'
  | EvPost _ :: t' =>
      match since with
      | None => true
      | Some g => floor <=? g
      end && min_gap_ok floor (Some 0) t'
  end.

(** The sleeps of a trace, in order. *)
Definition sleeps (t : list event) : list Z :=
  flat_map (fun e => match e with EvSleep s => [s] | EvPost _ => [] end) t.

(** The calls of the public methods that build a request. *)
Inductive operation : Type :=
| GetQRCode (amount : Z) (currency qrc_type : string)
    (payment_purpose qr_ttl notification_url redirect_url width height
     order_number message_id sender_fio sender_id sender_bank_bic
     subscription_service_id subscription_service_name : option string)
| GetQRStatus (qrc_id payrrn message_id : option string)
| GetReversalData (qrc_id payrrn trx_id trx_dt : option string)
    (amount : option Z) (currency message_id : option string)
    (return_rest_amount : option bool)
| PerformReversal (qrc_id payrrn trx_id trx_dt : option string)
    (amount : option Z) (currency message_id notification_url : option string)
    (return_rest_amount : option bool)
| GetReversalStatus (payrrn original_trx_id trx_id message_id : option string)
| GetReversalHistory (payrrn : string).

(** The dictionary an operation hands to [_send_request]. *)
Definition request_data (self : AlfaBankSBPClient) (op : operation) : pydict :=
  match op with
  | GetQRCode a c q pp ttl nu ru wd ht onum mid sf sid sb ssi ssn =>
      get_qr_code_data self a c q pp ttl nu ru wd ht onum mid sf sid sb ssi ssn
  | GetQRStatus q p m => get_qr_status_data self q p m
  | GetReversalData q p t dt a c m r =>
      get_reversal_data_data self q p t dt a c m r
  | PerformReversal q p t dt a c m nu r =>
      perform_reversal_data self q p t dt a c m nu r
  | GetReversalStatus p o t m => get_reversal_status_data self p o t m
  | GetReversalHistory p => get_reversal_history_data self p
  end.

(** The command name of an operation. *)
Definition command_of (op : operation) : string :=
  match op with
  | GetQRCode _ _ _ _ _ _ _ _ _ _ _ _ _ _ _ _ => "GetQRCd"
  | GetQRStatus _ _ _ => "GetQRCstatus"
  | GetReversalData _ _ _ _ _ _ _ _ => "GetQRCreversalData"
  | PerformReversal _ _ _ _ _ _ _ _ _ => "QRCreversal"
  | GetReversalStatus _ _ _ _ => "GetQRCreversalStatus"
  | GetReversalHistory _ => "GetQRCreversalHistory"
  end.

(** The fixed set of command names. *)
Definition operation_set : list string :=
  ["GetQRCd"; "GetQRCstatus"; "GetQRCreversalData"; "QRCreversal";
   "GetQRCreversalStatus"; "GetQRCreversalHistory"].

(** The keys of an operation's request, apart from [queryData] of
    [get_qr_code], which depends on the arguments. *)
Definition field_names (op : operation) : list string :=
  match op with
  | GetQRCode _ _ _ _ _ nu _ _ _ _ _ sf sid sb _ _ =>
      ["command"; "TermNo"; "qrcType"; "amount"; "currency";
       "paymentPurpose"; "qrTtl"; "redirectUrl"; "width"; "height";
       "orderNumber"; "messageID"; "subscriptionServiceId";
       "subscriptionServiceName"]
      ++ (if py_any [nu; sf; sid; sb] then ["queryData"] else [])
  | GetQRStatus _ _ _ => ["command"; "TermNo"; "qrcId"; "payrrn"; "messageID"]
  | GetReversalData _ _ _ _ _ _ _ _ =>
      ["command"; "TermNo"; "qrcId"; "payrrn"; "trxId"; "trxDT"; "amount";
       "currency"; "messageID"; "ReturnRestAmount"]
  | PerformReversal _ _ _ _ _ _ _ _ _ =>
      ["command"; "TermNo"; "qrcId"; "payrrn"; "trxId"; "trxDT"; "amount";
       "currency"; "messageID"; "ReturnRestAmount"; "queryData"]
  | GetReversalStatus _ _ _ _ =>
      ["command"; "TermNo"; "payrrn"; "originalTrxId"; "trxId"; "messageID"]
  | GetReversalHistory _ => ["command"; "TermNo"; "payrrn"]
  end.

(** ** Concrete clients and servers for the examples *)

(** A key whose signature is the reversed input: any function will do. *)
Definition demo_key : private_key := {| sign := @rev byte |}.

Definition demo_client : AlfaBankSBPClient :=
  AlfaBankSBPClient_init "https://bank.example/api/" "T0000000000000000001"
    "alias" demo_key.

(** A client constructed with an empty terminal identifier. *)
Definition blank_client : AlfaBankSBPClient :=
  AlfaBankSBPClient_init "https://bank.example/api" "" "alias" demo_key.

(** A server that answers the [n]-th request with the [n]-th outcome of a
    list, and refuses the connection afterwards. *)
Definition scripted (l : list http_outcome) : nat -> request -> http_outcome :=
  fun n _ => nth n l ConnectionFailed.

(** A successful answer to a status query, with the given status. *)
Definition status_reply (s : string) : pydict :=
  [("ErrorCode", PInt 0); ("status", PStr s)].

Definition answer (d : pydict) : http_outcome := Response 200 (Some (PDict d)).

(** An answer with error code 5. *)
Definition bad_signature : pydict :=
  [("ErrorCode", PInt 5); ("message", PStr "bad signature")].

(** The status query of [demo_client] for the QR code [QR1]. *)
Definition demo_query : request :=
  status_request demo_client (Some "QR1") None.

(** Three servers for a poll of three attempts. *)
Definition pending_then_accepted : nat -> request -> http_outcome :=
  scripted [answer (status_reply "PDNG"); answer (status_reply "PDNG");
            answer (status_reply "ACWP")].

Definition always_pending : nat -> request -> http_outcome :=
  scripted [answer (status_reply "PDNG"); answer bad_signature;
            answer (status_reply "PDNG")].

Definition error_then_unavailable : nat -> request -> http_outcome :=
  scripted [answer bad_signature; Response 503 None;
            answer (status_reply "ACWP")].

(** A server whose first answer is an HTTP 500. *)
Definition failing_once : nat -> request -> http_outcome :=
  scripted [Response 500 None; answer (status_reply "ACWP")].

(** A text between double quotes. *)
Definition quoted (s : string) : string :=
  String dquote (s ++ String dquote "")%string.

(** ** Vocabulary of the further properties *)

(** A text of [n] slashes. *)
Fixpoint slashes (n : nat) : string :=
  match n with
  | O => EmptyString
  | S n' => String "/" (slashes n')
  end.

(** The last character of a text is a slash. *)
Fixpoint ends_with_slash (s : string) : bool :=
  match s with
  | EmptyString => false
  | String c r =>
      match r with
      | EmptyString => (c =? "/")%char
      | String _ _ => ends_with_slash r
      end
  end.

(** The call of the method of an operation. *)
Definition run_operation (server : nat -> request -> http_outcome)
    (self : AlfaBankSBPClient) (op : operation) : M pyval :=
  match op with
  | GetQRCode a c q pp ttl nu ru wd ht onum mid sf sid sb ssi ssn =>
      get_qr_code server self a c q pp ttl nu ru wd ht onum mid sf sid sb
        ssi ssn
  | GetQRStatus q p m => get_qr_status server self q p m
  | GetReversalData q p t dt a c m r =>
      get_reversal_data server self q p t dt a c m r
  | PerformReversal q p t dt a c m nu r =>
      perform_reversal server self q p t dt a c m nu r
  | GetReversalStatus p o t m => get_reversal_status server self p o t m
  | GetReversalHistory p => get_reversal_history server self p
  end.

(** The identifier rule of an operation, on the truth values of its
    arguments: an identifier that is [None] or the empty text does not
    count. *)
Definition identifiers_given (op : operation) : bool :=
  match op with
  | GetQRCode _ _ _ _ _ _ _ _ _ _ _ _ _ _ _ _ => true
  | GetQRStatus q p _ => truthy q || truthy p
  | GetReversalData q p t _ _ _ _ _ => truthy q || truthy p || truthy t
  | PerformReversal q p t _ _ _ _ _ _ => truthy q || truthy p || truthy t
  | GetReversalStatus p o t m => (truthy p || truthy o) && (truthy t || truthy m)
  | GetReversalHistory _ => true
  end.

(** What the method of an operation raises when its rule fails. *)
Definition validation_exn (op : operation) : exn :=
  match op with
  | PerformReversal _ _ _ _ _ _ _ _ _ =>
      ExcClient {| code := PStr "-1";
                   message := PStr "Требуется qrcId, payrrn или trxId" |}
  | _ => ExcTypeError
  end.

(** A byte of base64 text: a digit of the alphabet or the padding. *)
Definition is_b64_byte (b : byte) : bool :=
  existsb (Byte.eqb b) (b64_pad :: b64_alphabet).

(** No character of a text is a control character (below 0x20). *)
Fixpoint printable (s : string) : bool :=
  match s with
  | EmptyString => true
  | String c r => (32 <=? N_of_ascii c)%N && printable r
  end.

(** The inverse of [escape_string] on its image: a backslash introduces an
    escape, of one letter or of the form u00XY; any other character stands
    for itself. *)
Definition hex_value (c : ascii) : N :=
  let n := N_of_ascii c in
  if (n <? 58)%N then (n - 48)%N else (n - 87)%N.

Fixpoint unescape_string (s : string) : string :=
  match s with
  | EmptyString => EmptyString
  | String c r =>
      if (N_of_ascii c =? 92)%N then
        match r with
        | String e r1 =>
            if (N_of_ascii e =? 117)%N then
              match r1 with
              | String _ (String _ (String h (String l r2))) =>
                  String (ascii_of_N (hex_value h * 16 + hex_value l))
                    (unescape_string r2)
              | _ => EmptyString
              end
            else
              String
                (if (N_of_ascii e =? 110)%N then "010"%char
                 else if (N_of_ascii e =? 114)%N then "013"%char
                 else if (N_of_ascii e =? 116)%N then "009"%char
                 else if (N_of_ascii e =? 98)%N then "008"%char
                 else if (N_of_ascii e =? 102)%N then "012"%char
                 else e)
                (unescape_string r1)
        | EmptyString => EmptyString
        end
      else String c (unescape_string r)
  end.

(** The name of an optional parameter that was left unset. *)
Definition unset {A : Type} (k : string) (o : option A) : list string :=
  match o with
  | None => [k]
  | Some _ => []
  end.

(** The top-level fields of an operation whose parameter is [None] in the
    call. *)
Definition unset_fields (op : operation) : list string :=
  match op with
  | GetQRCode _ _ _ pp ttl _ ru wd ht onum mid _ _ _ ssi ssn =>
      unset "paymentPurpose" pp ++ unset "qrTtl" ttl ++ unset "redirectUrl" ru
      ++ unset "width" wd ++ unset "height" ht ++ unset "orderNumber" onum
      ++ unset "messageID" mid ++ unset "subscriptionServiceId" ssi
      ++ unset "subscriptionServiceName" ssn
  | GetQRStatus q p m =>
      unset "qrcId" q ++ unset "payrrn" p ++ unset "messageID" m
  | GetReversalData q p t dt a c m r =>
      unset "qrcId" q ++ unset "payrrn" p ++ unset "trxId" t
      ++ unset "trxDT" dt ++ unset "amount" a ++ unset "currency" c
      ++ unset "messageID" m ++ unset "ReturnRestAmount" r
  | PerformReversal q p t dt a c m _ r =>
      unset "qrcId" q ++ unset "payrrn" p ++ unset "trxId" t
      ++ unset "trxDT" dt ++ unset "amount" a ++ unset "currency" c
      ++ unset "messageID" m ++ unset "ReturnRestAmount" r
  | GetReversalStatus p o t m =>
      unset "payrrn" p ++ unset "originalTrxId" o ++ unset "trxId" t
      ++ unset "messageID" m
  | GetReversalHistory _ => []
  end.

(** The fields nested under queryData whose parameter is [None] in the
    call. *)
Definition unset_query_fields (op : operation) : list string :=
  match op with
  | GetQRCode _ _ _ _ _ nu _ _ _ _ _ sf sid sb _ _ =>
      unset "notificationUrl" nu ++ unset "SenderFIO" sf
      ++ unset "SenderID" sid ++ unset "SenderBankBIC" sb
  | PerformReversal _ _ _ _ _ _ _ nu _ => unset "notificationUrl" nu
  | _ => []
  end.

(** The amount of an operation, when it has one and it is given. *)
Definition amount_of (op : operation) : option Z :=
  match op with
  | GetQRCode a _ _ _ _ _ _ _ _ _ _ _ _ _ _ _ => Some a
  | GetReversalData _ _ _ _ a _ _ _ => a
  | PerformReversal _ _ _ _ a _ _ _ _ => a
  | _ => None
  end.

(** [str(amount)] raises in the call of the operation. *)
Definition amount_too_long (op : operation) : bool :=
  match amount_of op with
  | Some a => str_too_long a
  | None => false
  end.

(** What an attempt of the poll comes to after a query that did not end
    it, from the trace [w'] the query left: the sleep is taken when the
    interval fits the clock, and raises otherwise. *)
Definition after_sleep (interval_seconds : Z) (w' : world)
    : outcome (option pyval) * world :=
  if interval_seconds <=? time_sleep_max
  then (Return None, w' ++ [EvSleep (Z.max interval_seconds 10)])
  else (Raise ExcOverflowError, w').

(** * Properties *)

(** ** Traces *)

Lemma count_posts_app (w t : world) :
  count_posts (w ++ t) = (count_posts w + count_posts t)%nat.
Proof.
  unfold count_posts. rewrite filter_app, length_app. reflexivity.
Qed.

Lemma count_posts_cycles (r : request) (m : Z) (k : nat) :
  count_posts (cycles r m k) = k.
Proof.
  induction k as [|k IH]; [reflexivity|].
  change (count_posts (cycles r m (S k))) with (S (count_posts (cycles r m k))).
  now rewrite IH.
Qed.

Lemma sleeps_app (t u : list event) : sleeps (t ++ u) = sleeps t ++ sleeps u.
Proof. unfold sleeps. apply flat_map_app. Qed.

Lemma sleeps_cycles (r : request) (m : Z) (k : nat) :
  sleeps (cycles r m k) = repeat m k.
Proof.
  induction k as [|k IH]; [reflexivity|]. simpl. now rewrite <- IH.
Qed.

Lemma alternates_cycles (r : request) (m : Z) (k : nat) (t : list event) :
  alternates m (cycles r m k ++ t) = alternates m t.
Proof.
  induction k as [|k IH]; [reflexivity|].
  simpl. rewrite Z.eqb_refl. exact IH.
Qed.

Lemma alternates_min_gap (m : Z) (t : list event) :
  10 <= m -> alternates m t = true ->
  forall since, (forall g, since = Some g -> 10 <= g) ->
  min_gap_ok 10 since t = true.
Proof.
  intros Hm.
  assert (H : forall n t, (List.length t <= n)%nat ->
            alternates m t = true ->
            forall since, (forall g, since = Some g -> 10 <= g) ->
            min_gap_ok 10 since t = true).
  { induction n as [|n IH]; intros u Hlen Halt since Hs.
    - destruct u; [reflexivity|simpl in Hlen; lia].
    - destruct u as [|[r|s] u']; [reflexivity| |discriminate].
      simpl in Halt. simpl.
      assert (Hhead : match since with None => true | Some g => 10 <=? g end
                      = true).
      { destruct since as [g|]; [|reflexivity]. apply Z.leb_le. now apply Hs. }
      rewrite Hhead. simpl.
      destruct u' as [|[r'|s'] u'']; [reflexivity|discriminate|].
      apply andb_prop in Halt as [Hs' Halt]. apply Z.eqb_eq in Hs'. subst s'.
      simpl. apply IH.
      + simpl in Hlen. lia.
      + exact Halt.
      + intros g Hg. injection Hg as <-. lia. }
  intros Halt since Hs. now apply (H (List.length t) t).
Qed.

(** ** One request *)

Section Runs.

Variable server : nat -> request -> http_outcome.
Variable self : AlfaBankSBPClient.

Lemma error_code_nonzero_get (d : pydict) :
  negb (py_eq_int (dict_get_default d "ErrorCode" PNone) 0)
  = error_code_nonzero d.
Proof.
  unfold error_code_nonzero, dict_get_default.
  destruct (dict_get d "ErrorCode"); reflexivity.
Qed.

(** [_send_request] posts one request and turns the outcome into its
    result. *)
Lemma send_request_run (data : pydict) (endpoint : string) (w : world) :
  _send_request server self data endpoint w
  = (reply_of (server (count_posts w) (request_of self data endpoint)),
     w ++ [EvPost (request_of self data endpoint)]).
Proof.
  unfold _send_request, bind, session_post.
  fold (request_of self data endpoint).
  destruct (server (count_posts w) (request_of self data endpoint))
    as [|st body|class_name]; [reflexivity| |reflexivity].
  unfold reply_of, raise_for_status, http_error. cbn [fst snd].
  destruct ((400 <=? st) && (st <? 600)); [reflexivity|].
  unfold ret. destruct body as [v|]; [|reflexivity].
  destruct v as [ | b | z | s | l | d]; try reflexivity.
  simpl. unfold ret. rewrite error_code_nonzero_get.
  destruct (error_code_nonzero d); reflexivity.
Qed.

Lemma get_qr_status_run (qrc_id payrrn message_id : option string) (w : world) :
  truthy qrc_id || truthy payrrn = true ->
  get_qr_status server self qrc_id payrrn message_id w
  = _send_request server self
      (get_qr_status_data self qrc_id payrrn message_id) "" w.
Proof.
  intros H. unfold get_qr_status. now rewrite H.
Qed.

(** ** One round of the poll *)

Variables qrc_id payrrn : option string.
Variable interval_seconds : Z.
Hypothesis ids : truthy qrc_id || truthy payrrn = true.

Local Abbreviation rq := (status_request self qrc_id payrrn).
Local Abbreviation m := (Z.max interval_seconds 10).

(** The sleep of the poll: it is taken when the interval fits the clock,
    and raises otherwise. *)
Lemma sleep_run (w : world) :
  time_sleep m w
  = if interval_seconds <=? time_sleep_max
    then (Return tt, w ++ [EvSleep m])
    else (Raise ExcOverflowError, w).
Proof.
  unfold time_sleep, time_sleep_max.
  destruct (Z.leb_spec interval_seconds 9223372036) as [H|H].
  - destruct (Z.ltb_spec m (Z.opp 9223372036)); [lia|].
    destruct (Z.ltb_spec 9223372036 m); [lia|].
    destruct (Z.ltb_spec m 0); [lia|]. reflexivity.
  - destruct (Z.ltb_spec 9223372036 m); [|lia].
    now rewrite orb_true_r.
Qed.


Lemma poll_attempt_run (w : world) :
  poll_attempt server self qrc_id payrrn interval_seconds w
  = match reply_of (server (count_posts w) rq) with
    | Return (PDict d) =>
        if is_final d then (Return (Some (PDict d)), w ++ [EvPost rq])
        else after_sleep interval_seconds (w ++ [EvPost rq])
    | Return _ => (Raise ExcAttributeError, w ++ [EvPost rq])
    | Raise (ExcClient _) => after_sleep interval_seconds (w ++ [EvPost rq])
    | Raise e => (Raise e, w ++ [EvPost rq])
    end.
Proof.
  unfold poll_attempt, try_except, bind, after_sleep.
  rewrite (get_qr_status_run _ _ _ _ ids), send_request_run.
  change (request_of self (get_qr_status_data self qrc_id payrrn None) "")
    with rq.
  destruct (reply_of (server (count_posts w) rq)) as [v|e].
  - destruct v as [ | b | z | s | l | d]; try reflexivity.
    unfold py_get, ret.
    change (py_in_strs (dict_get_default d "status" PNone) ["ACWP"; "RJCT"])
      with (is_final d).
    destruct (is_final d); [reflexivity|].
    rewrite sleep_run.
    destruct (interval_seconds <=? time_sleep_max); reflexivity.
  - destruct e; try reflexivity.
    simpl. rewrite sleep_run.
    destruct (interval_seconds <=? time_sleep_max); reflexivity.
Qed.

Lemma reply_non_terminal (o : http_outcome) :
  non_terminal o = true ->
  (exists d, reply_of o = Return (PDict d) /\ is_final d = false)
  \/ (exists e, reply_of o = Raise (ExcClient e)).
Proof.
  unfold non_terminal, answers_pending, answers_api_error, success_body,
    api_error_body, reply_of.
  destruct o as [|st [v|]|class_name]; try discriminate.
  destruct v as [ | b | z | s | l | d]; try discriminate.
  destruct (http_error st); [discriminate|]. simpl.
  destruct (error_code_nonzero d); simpl.
  - intros _. right. eauto.
  - rewrite orb_false_r. intros H. left. exists d. split; [reflexivity|].
    now apply negb_true_iff.
Qed.


Lemma reply_transport_failure (o : http_outcome) (e : exn) :
  transport_failure o = Some e ->
  reply_of o = Raise e /\ isinstance_AlfaBankSBPClientError e = false.
Proof.
  unfold transport_failure, reply_of.
  destruct o as [|st body|class_name].
  - intros H. injection H as <-. auto.
  - destruct (http_error st); [|discriminate].
    intros H. injection H as <-. auto.
  - intros H. injection H as <-. auto.
Qed.

(** An attempt that meets an answer which is neither final nor absorbed
    ends the loop at once, by a return or by the exception of the query. *)
Lemma poll_attempt_ends (w : world) :
  non_terminal (server (count_posts w) rq) = false ->
  (exists d,
     success_body (server (count_posts w) rq) = Some d
     /\ is_final d = true
     /\ poll_attempt server self qrc_id payrrn interval_seconds w
        = (Return (Some (PDict d)), w ++ [EvPost rq]))
  \/ (exists e,
        reply_of (server (count_posts w) rq) = Raise e
        /\ isinstance_AlfaBankSBPClientError e = false
        /\ poll_attempt server self qrc_id payrrn interval_seconds w
           = (Raise e, w ++ [EvPost rq])).
Proof.
  rewrite poll_attempt_run.
  unfold non_terminal, answers_pending, answers_api_error,
    success_body, api_error_body, reply_of.
  destruct (server (count_posts w) rq) as [|st [v|]|class_name].
  - intros _. right. exists ExcConnectionError. auto.
  - destruct (http_error st) eqn:Hst.
    { intros _. right. exists (ExcHTTPError st).
      destruct v as [ | b | z | s | l | d]; auto. }
    destruct v as [ | b | z | s | l | d];
      try solve [intros _; right; exists ExcAttributeError; auto].
    simpl. destruct (error_code_nonzero d); simpl.
    + discriminate.
    + rewrite orb_false_r. intros Hf. apply negb_false_iff in Hf.
      left. exists d. rewrite Hf. auto.
  - destruct (http_error st) eqn:Hst; intros _; right.
    + exists (ExcHTTPError st). auto.
    + exists ExcJSONDecodeError. auto.
  - intros _. right. exists (ExcOther class_name). auto.
Qed.

(** An answer that would be absorbed, with an interval that does not fit
    the clock: the sleep raises and its exception leaves the poll. *)
Lemma poll_attempt_overflow (w : world) :
  time_sleep_max < interval_seconds ->
  non_terminal (server (count_posts w) rq) = true ->
  poll_attempt server self qrc_id payrrn interval_seconds w
  = (Raise ExcOverflowError, w ++ [EvPost rq]).
Proof.
  intros Hbig H. rewrite poll_attempt_run. unfold after_sleep.
  replace (interval_seconds <=? time_sleep_max) with false
    by (symmetry; apply Z.leb_gt; exact Hbig).
  destruct (reply_non_terminal _ H) as [[d [-> Hd]]|[e ->]];
    [now rewrite Hd|reflexivity].
Qed.

(** From here on the interval fits the clock. *)
Hypothesis in_range : interval_seconds <= time_sleep_max.

Lemma poll_attempt_non_terminal (w : world) :
  non_terminal (server (count_posts w) rq) = true ->
  poll_attempt server self qrc_id payrrn interval_seconds w
  = (Return None, w ++ [EvPost rq; EvSleep m]).
Proof.
  intros H. rewrite poll_attempt_run. unfold after_sleep.
  replace (interval_seconds <=? time_sleep_max) with true
    by (symmetry; apply Z.leb_le; exact in_range).
  destruct (reply_non_terminal _ H) as [[d [-> Hd]]|[e ->]];
    [rewrite Hd|]; now rewrite <- app_assoc.
Qed.

(** ** The loop *)

(** [k] rounds that neither end nor escape the poll use up [k] attempts and
    leave [k] request-and-sleep pairs in the trace. *)
Lemma poll_loop_skip (k n : nat) : forall w : world,
  (forall i, (i < k)%nat ->
     non_terminal (server (count_posts w + i) rq) = true) ->
  poll_loop server self qrc_id payrrn interval_seconds (k + n) w
  = poll_loop server self qrc_id payrrn interval_seconds n
      (w ++ cycles rq m k).
Proof.
  induction k as [|k IH]; intros w H.
  - simpl. now rewrite app_nil_r.
  - change (S k + n)%nat with (S (k + n)). simpl poll_loop. unfold bind.
    rewrite poll_attempt_non_terminal.
    + rewrite IH.
      * rewrite <- app_assoc. reflexivity.
      * intros i Hi. rewrite count_posts_app.
        change (count_posts [EvPost rq; EvSleep m]) with 1%nat.
        replace (count_posts w + 1 + i)%nat with (count_posts w + S i)%nat
          by lia.
        apply H. lia.
    + specialize (H 0%nat). rewrite Nat.add_0_r in H. apply H. lia.
Qed.

(** Whatever the server does, the new part of the trace alternates
    requests and sleeps of [m] seconds. *)
Lemma poll_loop_alternates (n : nat) : forall w : world,
  exists t,
    snd (poll_loop server self qrc_id payrrn interval_seconds n w) = w ++ t
    /\ alternates m t = true.
Proof.
  induction n as [|n IH]; intros w.
  - exists []. simpl. now rewrite app_nil_r.
  - simpl poll_loop. unfold bind. rewrite poll_attempt_run.
    unfold after_sleep.
    assert (Hstop : exists t, w ++ [EvPost rq] = w ++ t
                              /\ alternates m t = true)
      by (exists [EvPost rq]; auto).
    destruct (interval_seconds <=? time_sleep_max).
    + assert (Hgo : exists t,
                 snd (poll_loop server self qrc_id payrrn interval_seconds n
                        ((w ++ [EvPost rq]) ++ [EvSleep m])) = w ++ t
                 /\ alternates m t = true).
      { destruct (IH ((w ++ [EvPost rq]) ++ [EvSleep m])) as [t [Ht Ha]].
        exists (EvPost rq :: EvSleep m :: t). split.
        - rewrite Ht, <- !app_assoc. reflexivity.
        - simpl. rewrite Z.eqb_refl. exact Ha. }
      destruct (reply_of (server (count_posts w) rq)) as [v|e].
      * destruct v as [ | b | z | s | l | d]; try exact Hstop.
        destruct (is_final d); [exact Hstop|exact Hgo].
      * destruct e; try exact Hstop. exact Hgo.
    + destruct (reply_of (server (count_posts w) rq)) as [v|e].
      * destruct v as [ | b | z | s | l | d]; try exact Hstop.
        destruct (is_final d); exact Hstop.
      * destruct e; exact Hstop.
Qed.

End Runs.

(** * The claims *)

Section Claims.

Variable server : nat -> request -> http_outcome.
Variable self : AlfaBankSBPClient.

(** C1 (what the code does).  With every identifier of its rule unset, each
    of the five operations raises before any request is posted: the world is
    left as it was.  Only [perform_reversal] raises the client's exception,
    with code "-1" and the message naming the identifiers; the other four
    call the exception class with the message alone, and what is raised is
    the [TypeError] of that call. *)
Theorem validation_raises_before_any_request
    (message_id trx_id trx_dt currency notification_url : option string)
    (amount : option Z) (return_rest_amount : option bool)
    (max_attempts interval_seconds : Z) (w : world) :
  get_qr_status server self None None message_id w = (Raise ExcTypeError, w)
  /\ get_reversal_data server self None None None trx_dt amount currency
       message_id return_rest_amount w = (Raise ExcTypeError, w)
  /\ perform_reversal server self None None None trx_dt amount currency
       message_id notification_url return_rest_amount w
     = (Raise (ExcClient
                 {| code := PStr "-1";
                    message := PStr "Требуется qrcId, payrrn или trxId" |}),
        w)
  /\ get_reversal_status server self None None trx_id message_id w
     = (Raise ExcTypeError, w)
  /\ poll_qr_status server self None None max_attempts interval_seconds w
     = (Raise ExcTypeError, w).
Proof. repeat split. Qed.

(** C2 (amended).  No operation leaves an unset optional parameter out:
    the keys of the request of every operation are fixed, whatever is set
    ([queryData] of [get_qr_code] apart, present when a notification or
    sender field is truthy), and every parameter left unset is in the
    request with the value [None], at the top level and under queryData
    alike.  For [get_qr_code] with amount 10000 and the defaults, the five
    fields command, TermNo, qrcType, amount and currency are followed by
    nine fields of value [None], and there is no queryData.  [None] is
    serialised as null. *)
Theorem request_keeps_unset_fields :
  (forall op, keys (request_data self op) = field_names op)
  /\ get_qr_code_data self 10000 "RUB" "02" None None None None None None
       None None None None None None None
     = [("command", PStr "GetQRCd"); ("TermNo", PStr (term_no self));
        ("qrcType", PStr "02"); ("amount", PStr "10000");
        ("currency", PStr "RUB"); ("paymentPurpose", PNone);
        ("qrTtl", PNone); ("redirectUrl", PNone); ("width", PNone);
        ("height", PNone); ("orderNumber", PNone); ("messageID", PNone);
        ("subscriptionServiceId", PNone);
        ("subscriptionServiceName", PNone)]
  /\ json_dumps PNone = "null"
  /\ (forall op,
        Forall (fun k => dict_get (request_data self op) k = Some PNone)
          (unset_fields op))
  /\ (forall op query_data,
        dict_get (request_data self op) "queryData"
        = Some (PDict query_data) ->
        Forall (fun k => dict_get query_data k = Some PNone)
          (unset_query_fields op)).
Proof.
  split; [|split; [reflexivity|split; [reflexivity|split]]].
  - intros op. destruct op; try reflexivity.
    unfold request_data, get_qr_code_data, field_names.
    destruct (py_any _); reflexivity.
  - intros op.
    destruct op as [a c q pp ttl nu ru wd ht onum mid sf sid sb ssi ssn
                   | q p m0 | q p t dt a c m0 r | q p t dt a c m0 nu r
                   | p o t m0 | p ]; unfold unset_fields;
      repeat (apply Forall_app; split);
      try constructor;
      match goal with
      | |- Forall _ (unset _ ?x) =>
          destruct x; constructor; [|constructor];
          unfold request_data, get_qr_code_data; try destruct (py_any _);
          reflexivity
      end.
  - intros op query_data.
    destruct op as [a c q pp ttl nu ru wd ht onum mid sf sid sb ssi ssn
                   | q p m0 | q p t dt a c m0 r | q p t dt a c m0 nu r
                   | p o t m0 | p ]; unfold unset_query_fields;
      try (intros _; constructor).
    + unfold request_data, get_qr_code_data.
      destruct (py_any _); [|discriminate].
      intros H. injection H as <-.
      repeat (apply Forall_app; split);
        match goal with
        | |- Forall _ (unset _ ?x) =>
            destruct x; constructor; [|constructor]; reflexivity
        end.
    + intros H. injection H as <-.
      destruct nu; constructor; [|constructor]. reflexivity.
Qed.

(** C4.  [_send_request] raises the client's exception exactly when the
    response has a status that is no HTTP error and a body that parses to a
    mapping whose error code is absent or not 0; the exception carries the
    error code of the mapping and its message, or the default text when the
    mapping has no message.  It returns a value exactly when the error code
    of the mapping is 0, and the value is the mapping itself. *)
Theorem send_request_checks_error_code (data : pydict) (endpoint : string)
    (w : world) :
  let o := server (count_posts w) (request_of self data endpoint) in
  let r := fst (_send_request server self data endpoint w) in
  (forall e, r = Raise (ExcClient e) <->
     exists st d, o = Response st (Some (PDict d))
       /\ http_error st = false
       /\ (dict_get d "ErrorCode" = None
           \/ exists v, dict_get d "ErrorCode" = Some v
                        /\ py_eq_int v 0 = false)
       /\ code e = dict_get_default d "ErrorCode" PNone
       /\ message e = dict_get_default d "message" (PStr "Неизвестная ошибка"))
  /\ (forall v, r = Return v <->
        exists st d c, o = Response st (Some (PDict d))
          /\ http_error st = false
          /\ dict_get d "ErrorCode" = Some c /\ py_eq_int c 0 = true
          /\ v = PDict d).
Proof.
  intros o r. subst r. rewrite send_request_run. fold o. simpl fst.
  assert (Hnz : forall d, error_code_nonzero d = true <->
            (dict_get d "ErrorCode" = None
             \/ exists v, dict_get d "ErrorCode" = Some v
                          /\ py_eq_int v 0 = false)).
  { intros d. unfold error_code_nonzero.
    destruct (dict_get d "ErrorCode") as [c|].
    - rewrite negb_true_iff. split.
      + intros H. right. eauto.
      + intros [H|[v [H1 H2]]]; [discriminate|]. now injection H1 as ->.
    - split; auto. }
  assert (Hz : forall d, error_code_nonzero d = false <->
            exists c, dict_get d "ErrorCode" = Some c /\ py_eq_int c 0 = true).
  { intros d. unfold error_code_nonzero.
    destruct (dict_get d "ErrorCode") as [c|].
    - rewrite negb_false_iff. split.
      + intros H. eauto.
      + intros [c' [H1 H2]]. now injection H1 as ->.
    - split; [discriminate|]. intros [c [H _]]. discriminate. }
  unfold reply_of. split.
  - intros e. split.
    + destruct o as [|st [v|]|class_name]; try discriminate;
        destruct (http_error st) eqn:Hst; try discriminate.
      destruct v as [ | b | z | s | l | d]; try discriminate.
      destruct (error_code_nonzero d) eqn:Hd; [|discriminate].
      intros H. injection H as <-. exists st, d.
      split; [reflexivity|]. split; [exact Hst|].
      split; [now apply Hnz|]. split; reflexivity.
    + intros [st [d [-> [Hst [Hd [Hc Hm]]]]]]. rewrite Hst.
      apply Hnz in Hd. rewrite Hd. f_equal. f_equal.
      destruct e as [c m']. simpl in Hc, Hm. subst. reflexivity.
  - intros v. split.
    + destruct o as [|st [v'|]|class_name]; try discriminate;
        destruct (http_error st) eqn:Hst; try discriminate.
      destruct v' as [ | b | z | s | l | d]; try discriminate.
      destruct (error_code_nonzero d) eqn:Hd; [discriminate|].
      intros H. injection H as <-. apply Hz in Hd as [c [H1 H2]].
      exists st, d, c. auto.
    + intros [st [d [c [-> [Hst [H1 [H2 ->]]]]]]]. rewrite Hst.
      replace (error_code_nonzero d) with false; [reflexivity|].
      symmetry. apply Hz. eauto.
Qed.

(** C5.  [_send_request] serialises the request data once; the bytes
    obtained are the body of the one request it posts, and the
    Authorization header of that request is the base64 text of the key's
    signature of those same bytes.  The serialisation copies every byte of
    a non-ASCII character. *)
Theorem send_request_signs_what_it_posts (data : pydict) (endpoint : string)
    (w : world) :
  exists r,
    snd (_send_request server self data endpoint w) = w ++ [EvPost r]
    /\ req_data r = encode_utf8 (json_dumps (PDict data))
    /\ header_get (req_headers r) "Authorization"
       = Some (HBytes (b64encode (sign (_private_key self) (req_data r))))
    /\ (forall c, (128 <= N_of_ascii c)%N -> escape_char c = String c "").
Proof.
  exists (request_of self data endpoint). rewrite send_request_run.
  repeat split.
  intros c Hc. unfold escape_char.
  repeat match goal with
  | |- context [(?a =? ?b)%N] =>
      destruct (N.eqb_spec a b); [lia|]
  | |- context [(?a <? ?b)%N] =>
      destruct (N.ltb_spec a b); [lia|]
  end.
  reflexivity.
Qed.

(** C9 (amended).  The request of every operation has exactly one command
    field, whose value is the operation's command name, one of the six of
    the fixed set, and exactly one TermNo field, whose value is the
    terminal identifier the client holds, as it was given to the
    constructor: TermNo is empty exactly when that identifier is. *)
Theorem request_command_and_terminal (op : operation) :
  let d := request_data self op in
  count_occ string_dec (keys d) "command" = 1%nat
  /\ dict_get d "command" = Some (PStr (command_of op))
  /\ In (command_of op) operation_set
  /\ count_occ string_dec (keys d) "TermNo" = 1%nat
  /\ dict_get d "TermNo" = Some (PStr (term_no self))
  /\ (dict_get d "TermNo" = Some (PStr "") <-> term_no self = "")
  /\ (forall b t a k, term_no (AlfaBankSBPClient_init b t a k) = t).
Proof.
  intros d.
  assert (Hk : keys d = field_names op).
  { subst d. destruct op; try reflexivity.
    unfold request_data, get_qr_code_data, field_names.
    destruct (py_any _); reflexivity. }
  assert (Hc : dict_get d "command" = Some (PStr (command_of op))).
  { subst d. destruct op; try reflexivity.
    unfold request_data, get_qr_code_data.
    destruct (py_any _); reflexivity. }
  assert (Ht : dict_get d "TermNo" = Some (PStr (term_no self))).
  { subst d. destruct op; try reflexivity.
    unfold request_data, get_qr_code_data.
    destruct (py_any _); reflexivity. }
  rewrite Hk, Hc, Ht.
  split; [|split; [reflexivity|split; [|split; [|split; [reflexivity|split]]]]].
  - destruct op; try reflexivity.
    unfold field_names. destruct (py_any _); reflexivity.
  - destruct op; simpl; tauto.
  - destruct op; try reflexivity.
    unfold field_names. destruct (py_any _); reflexivity.
  - split; [intros H; now injection H|intros ->; reflexivity].
  - reflexivity.
Qed.

Section Poll.

Variables qrc_id payrrn : option string.
Variables max_attempts interval_seconds : Z.

Local Abbreviation rq := (status_request self qrc_id payrrn).
Local Abbreviation m := (Z.max interval_seconds 10).
Local Abbreviation poll :=
  (poll_qr_status server self qrc_id payrrn max_attempts interval_seconds).

(** C8.  Whatever the caller's interval and whatever the server answers,
    the trace of a poll alternates status queries and sleeps of
    max(interval_seconds, 10) seconds, each query but possibly the last
    being followed at once by such a sleep; so at least 10 seconds of sleep
    lie between two consecutive queries. *)
Theorem poll_keeps_the_floor (w : world) :
  exists t,
    snd (poll w) = w ++ t
    /\ alternates (Z.max interval_seconds 10) t = true
    /\ 10 <= Z.max interval_seconds 10
    /\ min_gap_ok 10 None t = true.
Proof.
  assert (H : exists t, snd (poll w) = w ++ t /\ alternates m t = true).
  { unfold poll_qr_status.
    destruct (truthy qrc_id || truthy payrrn) eqn:ids.
    - apply poll_loop_alternates. exact ids.
    - exists []. simpl. now rewrite app_nil_r. }
  destruct H as [t [Ht Ha]]. exists t.
  split; [exact Ht|]. split; [exact Ha|]. split; [lia|].
  apply (alternates_min_gap m); [lia|exact Ha|discriminate].
Qed.

Hypothesis ids : truthy qrc_id || truthy payrrn = true.

Lemma poll_is_loop (w : world) :
  poll w = poll_loop server self qrc_id payrrn interval_seconds
             (Z.to_nat max_attempts) w.
Proof. unfold poll_qr_status. now rewrite ids. Qed.

(** The interval is one that [time.sleep] accepts. *)
Hypothesis in_range : interval_seconds <= time_sleep_max.

(** C3 (amended).  In a poll whose interval [time.sleep] accepts and whose
    first [k] queries neither ended nor escaped it, with budget left for
    query [k] (counting from 0): when the server answers that query with an
    API error, the error is absorbed, the poller sleeps and goes on with
    the rest of its budget; when the query meets a transport failure (no
    connection, an HTTP status of the 4xx or 5xx class, or another
    exception of the post), that exception leaves the poll, with no sleep
    and no further query. *)
Theorem poll_absorbs_api_errors_only (k : nat) (w : world) :
  (k < Z.to_nat max_attempts)%nat ->
  (forall i, (i < k)%nat ->
     non_terminal (server (count_posts w + i) rq) = true) ->
  (answers_api_error (server (count_posts w + k) rq) = true ->
   poll w = poll_loop server self qrc_id payrrn interval_seconds
              (Z.to_nat max_attempts - S k) (w ++ cycles rq m (S k)))
  /\ (forall e, transport_failure (server (count_posts w + k) rq) = Some e ->
        poll w = (Raise e, w ++ cycles rq m k ++ [EvPost rq])
        /\ isinstance_AlfaBankSBPClientError e = false).
Proof.
  intros Hk Hfirst. rewrite poll_is_loop. split.
  - intros Herr.
    replace (Z.to_nat max_attempts)
      with (S k + (Z.to_nat max_attempts - S k))%nat at 1 by lia.
    apply poll_loop_skip; [exact ids|exact in_range|].
    intros i Hi. destruct (Nat.eq_dec i k) as [->|Hne].
    + unfold non_terminal. rewrite Herr. apply orb_true_r.
    + apply Hfirst. lia.
  - intros e He.
    destruct (reply_transport_failure _ _ He) as [Hr Hi]. split; [|exact Hi].
    replace (Z.to_nat max_attempts)
      with (k + S (Z.to_nat max_attempts - S k))%nat by lia.
    rewrite (poll_loop_skip server self qrc_id payrrn interval_seconds ids
               in_range k _ w Hfirst).
    simpl poll_loop. unfold bind.
    rewrite (poll_attempt_run server self qrc_id payrrn interval_seconds ids).
    rewrite count_posts_app, count_posts_cycles, Hr.
    destruct e; try discriminate; rewrite <- app_assoc; reflexivity.
Qed.


Lemma poll_exhausted (w : world) :
  (forall i, (i < Z.to_nat max_attempts)%nat ->
     non_terminal (server (count_posts w + i) rq) = true) ->
  poll w = (Return PNone, w ++ cycles rq m (Z.to_nat max_attempts)).
Proof.
  intros H. rewrite poll_is_loop.
  replace (Z.to_nat max_attempts) with (Z.to_nat max_attempts + 0)%nat at 1
    by lia.
  rewrite (poll_loop_skip server self qrc_id payrrn interval_seconds ids
             in_range _ _ w H).
  reflexivity.
Qed.


(** C10.  When a poll whose interval [time.sleep] accepts uses up its
    budget, what it adds to the trace is [max_attempts] times a query
    followed by a sleep of max(interval_seconds, 10) seconds: as many
    sleeps as queries, the last of them after the final query, and then the
    return of [None]. *)
Theorem poll_sleeps_after_every_query (w : world) :
  (forall i, (i < Z.to_nat max_attempts)%nat ->
     non_terminal (server (count_posts w + i) rq) = true) ->
  exists t,
    poll w = (Return PNone, w ++ t)
    /\ t = cycles rq (Z.max interval_seconds 10) (Z.to_nat max_attempts)
    /\ sleeps t = repeat (Z.max interval_seconds 10) (Z.to_nat max_attempts)
    /\ (0 < max_attempts ->
        last t (EvPost rq) = EvSleep (Z.max interval_seconds 10)).
Proof.
  intros H. exists (cycles rq m (Z.to_nat max_attempts)).
  split; [exact (poll_exhausted w H)|]. split; [reflexivity|].
  split; [apply sleeps_cycles|].
  intros Hpos. destruct (Z.to_nat max_attempts) as [|n] eqn:Hn; [lia|].
  clear. induction n as [|n IH]; [reflexivity|].
  change (cycles rq m (S (S n)))
    with (EvPost rq :: EvSleep m :: cycles rq m (S n)).
  rewrite <- IH. reflexivity.
Qed.

End Poll.

End Claims.

(** * The claims on concrete runs *)

(** C2, as the specification has it, fails on [get_qr_code] with amount
    10000 and the defaults: the request has the key paymentPurpose, with
    value [None], so its keys are not the five the claim lists and it has a
    null-valued field. *)
Lemma get_qr_code_sends_unset_fields :
  let d := get_qr_code_data demo_client 10000 "RUB" "02" None None None None
             None None None None None None None None None in
  dict_get d "paymentPurpose" = Some PNone
  /\ List.length (keys d) = 14%nat
  /\ ~ (forall k, In k (keys d) <->
          In k ["command"; "TermNo"; "qrcType"; "amount"; "currency"]).
Proof.
  split; [reflexivity|]. split; [reflexivity|].
  intros H. specialize (H "paymentPurpose"). destruct H as [H _].
  assert (Hin : In "paymentPurpose"
                  ["command"; "TermNo"; "qrcType"; "amount"; "currency"]).
  { apply H. simpl. tauto. }
  simpl in Hin. repeat destruct Hin as [Hin|Hin]; try discriminate; exact Hin.
Qed.

(** C3, as the specification has it, fails on a poll of three attempts
    whose first query is answered with HTTP status 500 (or meets no
    connection): the exception of the HTTP library leaves the poll after
    that one query, although the next answer would have been ACWP. *)
Lemma poll_propagates_transport_failure :
  poll_qr_status failing_once demo_client (Some "QR1") None 3 1 []
  = (Raise (ExcHTTPError 500), [EvPost demo_query])
  /\ poll_qr_status (scripted []) demo_client (Some "QR1") None 3 1 []
     = (Raise ExcConnectionError, [EvPost demo_query]).
Proof. split; reflexivity. Qed.

(** C9, as the specification has it, fails for a client constructed with
    an empty terminal identifier: the TermNo of its requests is the empty
    string. *)
Lemma blank_terminal_identifier :
  dict_get (request_data blank_client (GetReversalHistory "123456789012"))
    "TermNo" = Some (PStr "")
  /\ blank_client
     = AlfaBankSBPClient_init "https://bank.example/api" "" "alias" demo_key.
Proof. split; reflexivity. Qed.

(** An interval of one second is one that [time.sleep] accepts. *)
Lemma one_second_in_range : 1 <= time_sleep_max.
Proof. unfold time_sleep_max. lia. Qed.

(** The amended C3 at work: an API error as first answer is absorbed, an
    HTTP 503 as second answer leaves the poll. *)
Lemma poll_absorbs_api_errors_only_witness :
  poll_qr_status error_then_unavailable demo_client (Some "QR1") None 3 1 []
  = (Raise (ExcHTTPError 503),
     [EvPost demo_query; EvSleep 10; EvPost demo_query])
  /\ isinstance_AlfaBankSBPClientError (ExcHTTPError 503) = false.
Proof.
  refine (proj2
    (poll_absorbs_api_errors_only error_then_unavailable demo_client
       (Some "QR1") None 3 1 eq_refl one_second_in_range 1%nat [] _ _)
    (ExcHTTPError 503) eq_refl).
  - simpl. lia.
  - intros i Hi. destruct i as [|i]; [reflexivity|lia].
Defined.



(** C10 on the same sequence: three queries, three sleeps of 10 seconds,
    the last one after the final query. *)
Lemma poll_sleeps_after_every_query_witness :
  exists t,
    poll_qr_status always_pending demo_client (Some "QR1") None 3 1 []
    = (Return PNone, [] ++ t)
    /\ t = cycles demo_query (Z.max 1 10) (Z.to_nat 3)
    /\ sleeps t = repeat (Z.max 1 10) (Z.to_nat 3)
    /\ (0 < 3 -> last t (EvPost demo_query) = EvSleep (Z.max 1 10)).
Proof.
  refine (poll_sleeps_after_every_query always_pending demo_client
            (Some "QR1") None 3 1 eq_refl one_second_in_range [] _).
  intros i Hi. destruct i as [|[|[|i]]]; try reflexivity.
  simpl in Hi. lia.
Defined.

(** ** Further examples *)

(** An answer with error code 0 is returned whole; one with error code 5
    and the message "bad signature" raises the exception with that code and
    message; one without error code raises it with code [None] and the
    default message. *)
Example send_request_examples :
  fst (_send_request (scripted [answer (status_reply "PDNG")]) demo_client
         [] "" [])
  = Return (PDict (status_reply "PDNG"))
  /\ fst (_send_request (scripted [answer bad_signature]) demo_client [] "" [])
     = Raise (ExcClient {| code := PInt 5; message := PStr "bad signature" |})
  /\ fst (_send_request (scripted [answer [("status", PStr "ACWP")]])
            demo_client [] "" [])
     = Raise (ExcClient {| code := PNone;
                           message := PStr "Неизвестная ошибка" |}).
Proof. repeat split. Qed.

(** The body of a status query: fields in the order of insertion, unset
    parameters as null. *)
Example status_query_body :
  string_of_list_byte (req_data demo_query)
  = ("{" ++ quoted "command" ++ ": " ++ quoted "GetQRCstatus" ++ ", "
     ++ quoted "TermNo" ++ ": " ++ quoted "T0000000000000000001" ++ ", "
     ++ quoted "qrcId" ++ ": " ++ quoted "QR1" ++ ", "
     ++ quoted "payrrn" ++ ": null, "
     ++ quoted "messageID" ++ ": null}")%string.
Proof. reflexivity. Qed.

(** Cyrillic text goes into the body as it is. *)
Example json_dumps_cyrillic :
  json_dumps (PStr "Оплата заказа") = quoted "Оплата заказа".
Proof. reflexivity. Qed.

(** [get_qr_code] with a notification URL nests it under queryData. *)
Example get_qr_code_query_data :
  dict_get
    (get_qr_code_data demo_client 10000 "RUB" "02" None None
       (Some "https://x") None None None None None None None None None None)
    "queryData"
  = Some (PDict [("notificationUrl", PStr "https://x"); ("SenderFIO", PNone);
                 ("SenderID", PNone); ("SenderBankBIC", PNone)]).
Proof. reflexivity. Qed.

Example b64encode_examples :
  string_of_list_byte (b64encode (list_byte_of_string "Man")) = "TWFu"
  /\ string_of_list_byte (b64encode (list_byte_of_string "Ma")) = "TWE="
  /\ string_of_list_byte (b64encode (list_byte_of_string "M")) = "TQ==".
Proof. repeat split. Qed.

Example rstrip_slash_examples :
  rstrip_slash "https://h/api//" = "https://h/api"
  /\ rstrip_slash "a/b" = "a/b" /\ rstrip_slash "//" = "".
Proof. repeat split. Qed.

(** * Further properties *)

(** ** Dictionaries and [_build_request_data] *)

Lemma dict_get_set_same (d : pydict) (k : string) (v : pyval) :
  dict_get (dict_set d k v) k = Some v.
Proof.
  induction d as [|[k' v'] d IH]; simpl.
  - now rewrite String.eqb_refl.
  - destruct (k' =? k)%string eqn:E; simpl; rewrite E; [reflexivity|exact IH].
Qed.

Lemma dict_get_set_other (d : pydict) (k k' : string) (v : pyval) :
  k <> k' -> dict_get (dict_set d k v) k' = dict_get d k'.
Proof.
  intros Hne. induction d as [|[k0 v0] d IH]; simpl.
  - destruct (String.eqb_spec k k'); [contradiction|reflexivity].
  - destruct (String.eqb_spec k0 k) as [->|Hk0]; simpl.
    + destruct (String.eqb_spec k k'); [contradiction|reflexivity].
    + destruct (k0 =? k')%string; [reflexivity|exact IH].
Qed.

Lemma keys_dict_set (d : pydict) (k : string) (v : pyval) :
  keys (dict_set d k v)
  = if existsb (String.eqb k) (keys d) then keys d else keys d ++ [k].
Proof.
  unfold keys. induction d as [|[k0 v0] d IH]; [reflexivity|].
  simpl. rewrite (String.eqb_sym k k0).
  destruct (k0 =? k)%string; simpl; [reflexivity|].
  rewrite IH.
  destruct (existsb (String.eqb k) (map fst d)); reflexivity.
Qed.

Lemma existsb_eqb_In (k : string) (l : list string) :
  existsb (String.eqb k) l = true <-> In k l.
Proof.
  rewrite existsb_exists. split.
  - intros [x [Hin Hx]]. apply String.eqb_eq in Hx. now subst.
  - intros H. exists k. split; [exact H|apply String.eqb_refl].
Qed.

Lemma NoDup_keys_dict_set (d : pydict) (k : string) (v : pyval) :
  NoDup (keys d) -> NoDup (keys (dict_set d k v)).
Proof.
  intros H. rewrite keys_dict_set.
  destruct (existsb (String.eqb k) (keys d)) eqn:E; [exact H|].
  apply NoDup_app; [exact H|repeat constructor; intros []|].
  intros x Hx [<-|[]].
  apply existsb_eqb_In in Hx. congruence.
Qed.

Lemma NoDup_keys_dict_update (items d : pydict) :
  NoDup (keys d) -> NoDup (keys (dict_update d items)).
Proof.
  revert d. induction items as [|[k v] items IH]; intros d H; [exact H|].
  apply IH. now apply NoDup_keys_dict_set.
Qed.

Lemma dict_get_not_in (d : pydict) (k : string) :
  ~ In k (keys d) -> dict_get d k = None.
Proof.
  induction d as [|[k0 v0] d IH]; [reflexivity|]. simpl. intros H.
  destruct (String.eqb_spec k0 k) as [->|Hne]; [tauto|]. apply IH. tauto.
Qed.

Lemma dict_get_update (items d : pydict) (k : string) :
  NoDup (keys items) ->
  dict_get (dict_update d items) k
  = match dict_get items k with
    | Some v => Some v
    | None => dict_get d k
    end.
Proof.
  revert d. induction items as [|[k0 v0] items IH]; intros d Hnd;
    [reflexivity|].
  inversion Hnd as [|? ? Hnotin Hnd']; subst.
  change (dict_update d ((k0, v0) :: items))
    with (dict_update (dict_set d k0 v0) items).
  rewrite (IH _ Hnd'). simpl.
  destruct (String.eqb_spec k0 k) as [->|Hne].
  - rewrite (dict_get_not_in items k Hnotin). apply dict_get_set_same.
  - destruct (dict_get items k); [reflexivity|].
    now apply dict_get_set_other.
Qed.

Lemma keys_dict_update_prefix (items d : pydict) :
  exists rest, keys (dict_update d items) = keys d ++ rest.
Proof.
  revert d. induction items as [|[k v] items IH]; intros d.
  - exists []. simpl. now rewrite app_nil_r.
  - change (dict_update d ((k, v) :: items))
      with (dict_update (dict_set d k v) items).
    destruct (IH (dict_set d k v)) as [rest Hr]. rewrite Hr, keys_dict_set.
    destruct (existsb (String.eqb k) (keys d)).
    + now exists rest.
    + exists (k :: rest). now rewrite <- app_assoc.
Qed.

(** X1.  For any well-formed [optional_params], the dictionary that
    [_build_request_data] returns has one entry per key, begins with
    command and TermNo in this order, and maps a key to the value
    [optional_params] gives it when it has one, and otherwise to the
    command name or the terminal identifier: a command or TermNo entry of
    [optional_params] replaces the fixed one. *)
Theorem build_request_data_lookup (self : AlfaBankSBPClient)
    (command : string) (optional_params : pydict) (k : string) :
  NoDup (keys optional_params) ->
  let d := _build_request_data self command optional_params in
  NoDup (keys d)
  /\ (exists rest, keys d = "command" :: "TermNo" :: rest)
  /\ dict_get d k
     = match dict_get optional_params k with
       | Some v => Some v
       | None =>
           if (k =? "command")%string then Some (PStr command)
           else if (k =? "TermNo")%string then Some (PStr (term_no self))
           else None
       end.
Proof.
  intros Hnd d. subst d. unfold _build_request_data.
  split; [|split].
  - apply NoDup_keys_dict_update. repeat constructor; simpl.
    + intros [H|[]]. discriminate.
    + intros [].
  - apply (keys_dict_update_prefix optional_params
             (py_dict [("command", PStr command);
                       ("TermNo", PStr (term_no self))])).
  - rewrite (dict_get_update _ _ _ Hnd).
    destruct (dict_get optional_params k); [reflexivity|].
    change (dict_get (py_dict [("command", PStr command);
                               ("TermNo", PStr (term_no self))]) k)
      with (if ("command" =? k)%string then Some (PStr command)
            else if ("TermNo" =? k)%string then Some (PStr (term_no self))
            else None).
    rewrite (String.eqb_sym "command" k), (String.eqb_sym "TermNo" k).
    reflexivity.
Qed.

(** X1 at work: a command entry among the parameters takes the place of the
    command name. *)
Lemma build_request_data_lookup_witness :
  let d := _build_request_data demo_client "GetQRCd"
             [("command", PStr "Other"); ("amount", PStr "1")] in
  NoDup (keys d)
  /\ (exists rest, keys d = "command" :: "TermNo" :: rest)
  /\ dict_get d "command" = Some (PStr "Other").
Proof.
  refine (build_request_data_lookup demo_client "GetQRCd"
            [("command", PStr "Other"); ("amount", PStr "1")] "command" _).
  repeat constructor; simpl.
  - intros [H|[]]. discriminate.
  - intros [].
Defined.

(** ** The base URL *)

Lemma rstrip_slash_decompose (s : string) :
  exists n, s = (rstrip_slash s ++ slashes n)%string.
Proof.
  induction s as [|c r [n IH]].
  - exists 0%nat. reflexivity.
  - simpl. destruct (String.eqb_spec (rstrip_slash r) "") as [He|Hne].
    + destruct (Ascii.eqb_spec c "/") as [->|Hc]; simpl.
      * exists (S n). rewrite He in IH. simpl in IH. simpl. now rewrite <- IH.
      * exists n. now rewrite <- IH.
    + simpl. exists n. now rewrite <- IH.
Qed.

Lemma rstrip_slash_no_trailing (s : string) :
  ends_with_slash (rstrip_slash s) = false.
Proof.
  induction s as [|c r IH]; [reflexivity|].
  simpl. destruct (String.eqb_spec (rstrip_slash r) "") as [He|Hne].
  - destruct (Ascii.eqb_spec c "/") as [->|Hc]; simpl; [reflexivity|].
    rewrite He. now apply Ascii.eqb_neq.
  - simpl. destruct (rstrip_slash r); [contradiction|exact IH].
Qed.

(** X2.  The base URL a constructed client holds is the URL given to the
    constructor without its trailing slashes: the given URL is the held one
    followed by slashes only, the held one does not end in a slash, and the
    URL of a request is the held one, one slash and the endpoint. *)
Theorem init_base_url_without_trailing_slashes
    (url term alias : string) (key : private_key) (data : pydict)
    (endpoint : string) :
  let self := AlfaBankSBPClient_init url term alias key in
  (exists n, url = (base_url self ++ slashes n)%string)
  /\ ends_with_slash (base_url self) = false
  /\ req_url (request_of self data endpoint)
     = (base_url self ++ "/" ++ endpoint)%string
  /\ rstrip_slash (base_url self) = base_url self.
Proof.
  intros self. subst self. simpl.
  split; [apply rstrip_slash_decompose|].
  split; [apply rstrip_slash_no_trailing|]. split; [reflexivity|].
  generalize (rstrip_slash_no_trailing url).
  generalize (rstrip_slash url) as s. clear.
  induction s as [|c r IH]; [reflexivity|].
  simpl. intros H. destruct r as [|c' r'].
  - simpl. now rewrite H.
  - rewrite (IH H). simpl. reflexivity.
Qed.

(** ** Requests and their failures *)

Section MoreRuns.

Variable server : nat -> request -> http_outcome.
Variable self : AlfaBankSBPClient.

Lemma http_error_range (st : Z) : http_error st = true <-> 400 <= st < 600.
Proof. unfold http_error. rewrite andb_true_iff, Z.leb_le, Z.ltb_lt. tauto. Qed.

(** X3.  What [_send_request] raises when the exchange fails, in the order
    the checks are made: an exception of the post itself (the connection
    error, or any other) leaves as it is; a response with a status from 400
    to 599 raises the HTTP error whatever its body, a mapping with error
    code 0 or with an API error included; with another status, a body that
    is not JSON raises the JSON decoding error, and a JSON body that is no
    mapping raises an [AttributeError].  In every case one request has been
    posted. *)
Theorem send_request_failures (data : pydict) (endpoint : string)
    (w : world) :
  let o := server (count_posts w) (request_of self data endpoint) in
  let r := _send_request server self data endpoint w in
  snd r = w ++ [EvPost (request_of self data endpoint)]
  /\ (o = ConnectionFailed -> fst r = Raise ExcConnectionError)
  /\ (forall class_name,
        o = PostRaises class_name -> fst r = Raise (ExcOther class_name))
  /\ (forall st body,
        o = Response st body -> 400 <= st < 600 ->
        fst r = Raise (ExcHTTPError st))
  /\ (forall st,
        o = Response st None -> ~ 400 <= st < 600 ->
        fst r = Raise ExcJSONDecodeError)
  /\ (forall st v,
        o = Response st (Some v) -> ~ 400 <= st < 600 ->
        (forall d, v <> PDict d) ->
        fst r = Raise ExcAttributeError).
Proof.
  intros o r. subst r. rewrite send_request_run. fold o.
  cbn [fst snd]. unfold reply_of.
  split; [reflexivity|]. split; [now intros ->|]. split; [now intros c ->|].
  split; [|split].
  - intros st body -> Hst. apply http_error_range in Hst. now rewrite Hst.
  - intros st -> Hst.
    destruct (http_error st) eqn:E; [|reflexivity].
    apply http_error_range in E. contradiction.
  - intros st v -> Hst Hv.
    destruct (http_error st) eqn:E;
      [apply http_error_range in E; contradiction|].
    destruct v as [ | b | z | s | l | d]; try reflexivity.
    now destruct (Hv d).
Qed.

Lemma py_str_run (z : Z) (w : world) :
  py_str z w
  = if str_too_long z then (Raise ExcValueError, w)
    else (Return (py_str_int z), w).
Proof. unfold py_str. destruct (str_too_long z); reflexivity. Qed.

(** X4.  The method of an operation first tests its identifier rule on the
    truth values of the arguments, and raises at once when the rule fails;
    it then turns the amount, when there is one, into text, which raises a
    [ValueError] for an amount of more than 4300 digits; only then does it
    post, exactly one request, with the operation's request data, to the
    base URL followed by a slash.  A call that raises in one of the first
    two steps posts nothing, and no call sleeps. *)
Theorem operation_validates_then_sends (op : operation) (w : world) :
  let r := run_operation server self op w in
  let rq := request_of self (request_data self op) "" in
  (identifiers_given op = false -> r = (Raise (validation_exn op), w))
  /\ (identifiers_given op = true -> amount_too_long op = true ->
      r = (Raise ExcValueError, w))
  /\ (identifiers_given op = true -> amount_too_long op = false ->
      snd r = w ++ [EvPost rq]
      /\ fst r = fst (_send_request server self (request_data self op) "" w))
  /\ (snd r = w \/ snd r = w ++ [EvPost rq])
  /\ sleeps (snd r) = sleeps w.
Proof.
  intros r rq.
  assert (H : r = if negb (identifiers_given op)
                  then (Raise (validation_exn op), w)
                  else if amount_too_long op then (Raise ExcValueError, w)
                  else _send_request server self (request_data self op) "" w).
  { subst r.
    destruct op as [a c q pp ttl nu ru wd ht onum mid sf sid sb ssi ssn
                   | q p m0 | q p t dt a c m0 r | q p t dt a c m0 nu r
                   | p o t m0 | p ];
      cbn [run_operation identifiers_given amount_too_long amount_of negb].
    - unfold get_qr_code, bind. rewrite py_str_run.
      destruct (str_too_long a); reflexivity.
    - unfold get_qr_status. destruct (truthy q || truthy p); reflexivity.
    - unfold get_reversal_data.
      destruct (truthy q || truthy p || truthy t); [|reflexivity].
      cbn [negb]. unfold bind, py_str_opt.
      destruct a as [a|]; cbn [amount_too_long amount_of]; [|reflexivity].
      unfold bind. rewrite py_str_run. destruct (str_too_long a); reflexivity.
    - unfold perform_reversal.
      destruct (truthy q || truthy p || truthy t); [|reflexivity].
      cbn [negb]. unfold bind, py_str_opt.
      destruct a as [a|]; cbn [amount_too_long amount_of]; [|reflexivity].
      unfold bind. rewrite py_str_run. destruct (str_too_long a); reflexivity.
    - unfold get_reversal_status.
      destruct (truthy p || truthy o); [|reflexivity].
      destruct (truthy t || truthy m0); reflexivity.
    - reflexivity. }
  rewrite H. clear H.
  destruct (identifiers_given op); simpl negb; cbv iota.
  - destruct (amount_too_long op).
    + repeat split; try discriminate; auto.
    + rewrite send_request_run. fold rq. cbn [fst snd].
      repeat split; try discriminate; auto.
      rewrite sleeps_app. simpl. apply app_nil_r.
  - repeat split; try discriminate; auto.
Qed.

(** ** More on the poll *)

Section MorePoll.

Variables qrc_id payrrn : option string.
Variables max_attempts interval_seconds : Z.

Local Abbreviation rq := (status_request self qrc_id payrrn).
Local Abbreviation m := (Z.max interval_seconds 10).
Local Abbreviation poll :=
  (poll_qr_status server self qrc_id payrrn max_attempts interval_seconds).
Local Abbreviation loop :=
  (poll_loop server self qrc_id payrrn interval_seconds).

Hypothesis ids : truthy qrc_id || truthy payrrn = true.

(** Every way the loop can end, with the trace it leaves.  The last case
    is that of an interval [time.sleep] refuses. *)
Lemma poll_loop_outcomes (n : nat) : forall w : world,
  exists k,
    (k <= n)%nat
    /\ (forall i, (i < k)%nat ->
          non_terminal (server (count_posts w + i) rq) = true)
    /\ ((k = n /\ loop n w = (Return PNone, w ++ cycles rq m n))
        \/ (k < n)%nat
           /\ ((exists d,
                  success_body (server (count_posts w + k) rq) = Some d
                  /\ is_final d = true
                  /\ loop n w
                     = (Return (PDict d), w ++ cycles rq m k ++ [EvPost rq]))
               \/ (exists e,
                     reply_of (server (count_posts w + k) rq) = Raise e
                     /\ isinstance_AlfaBankSBPClientError e = false
                     /\ loop n w
                        = (Raise e, w ++ cycles rq m k ++ [EvPost rq]))
               \/ (k = 0%nat
                   /\ time_sleep_max < interval_seconds
                   /\ non_terminal (server (count_posts w) rq) = true
                   /\ loop n w = (Raise ExcOverflowError, w ++ [EvPost rq])))).
Proof.
  induction n as [|n IH]; intros w.
  - exists 0%nat. split; [lia|]. split; [intros i Hi; lia|].
    left. split; [reflexivity|]. simpl. now rewrite app_nil_r.
  - destruct (non_terminal (server (count_posts w) rq)) eqn:Hnt.
    + destruct (Z_le_gt_dec interval_seconds time_sleep_max) as [Hin|Hbig].
      * destruct (IH (w ++ [EvPost rq; EvSleep m])) as [k [Hk [Hfirst Hend]]].
        assert (Hcount : forall j,
                  (count_posts (w ++ [EvPost rq; EvSleep m]) + j
                   = count_posts w + S j)%nat).
        { intros j. rewrite count_posts_app.
          change (count_posts [EvPost rq; EvSleep m]) with 1%nat. lia. }
        assert (Hstep : forall x, loop n (w ++ [EvPost rq; EvSleep m]) = x ->
                                  loop (S n) w = x).
        { intros x Hx. simpl poll_loop. unfold bind.
          rewrite (poll_attempt_non_terminal server self qrc_id payrrn
                     interval_seconds ids Hin w Hnt). exact Hx. }
        exists (S k). split; [lia|]. split.
        -- intros i Hi. destruct i as [|i].
           ++ now rewrite Nat.add_0_r.
           ++ rewrite <- Hcount. apply Hfirst. lia.
        -- rewrite <- Hcount.
           destruct Hend
             as [[-> Hl]
                |[Hlt [[d [Hd [Hf Hl]]]
                      |[[e [He [Hi Hl]]]|[_ [Hbig _]]]]]].
           ++ left. split; [reflexivity|]. apply Hstep. rewrite Hl.
              now rewrite <- app_assoc.
           ++ right. split; [lia|]. left. exists d.
              split; [exact Hd|]. split; [exact Hf|]. apply Hstep.
              rewrite Hl. now rewrite <- app_assoc.
           ++ right. split; [lia|]. right. left. exists e.
              split; [exact He|]. split; [exact Hi|]. apply Hstep.
              rewrite Hl. now rewrite <- app_assoc.
           ++ lia.
      * exists 0%nat. split; [lia|]. split; [intros i Hi; lia|].
        right. split; [lia|]. right. right.
        split; [reflexivity|]. split; [lia|]. split; [reflexivity|].
        simpl poll_loop. unfold bind.
        rewrite (poll_attempt_overflow server self qrc_id payrrn
                   interval_seconds ids w); [reflexivity|lia|exact Hnt].
    + exists 0%nat. split; [lia|]. split; [intros i Hi; lia|].
      right. split; [lia|]. rewrite Nat.add_0_r.
      simpl poll_loop. unfold bind.
      destruct (poll_attempt_ends server self qrc_id payrrn interval_seconds
                  ids w Hnt) as [[d [Hd [Hf Hl]]]|[e [He [Hi Hl]]]];
        rewrite Hl.
      * left. exists d. auto.
      * right. left. exists e. auto.
Qed.

Lemma poll_outcomes (w : world) :
  exists k,
    (k <= Z.to_nat max_attempts)%nat
    /\ (forall i, (i < k)%nat ->
          non_terminal (server (count_posts w + i) rq) = true)
    /\ ((k = Z.to_nat max_attempts
         /\ poll w = (Return PNone, w ++ cycles rq m k))
        \/ (k < Z.to_nat max_attempts)%nat
           /\ ((exists d,
                  success_body (server (count_posts w + k) rq) = Some d
                  /\ is_final d = true
                  /\ poll w
                     = (Return (PDict d), w ++ cycles rq m k ++ [EvPost rq]))
               \/ (exists e,
                     reply_of (server (count_posts w + k) rq) = Raise e
                     /\ isinstance_AlfaBankSBPClientError e = false
                     /\ poll w
                        = (Raise e, w ++ cycles rq m k ++ [EvPost rq]))
               \/ (k = 0%nat
                   /\ time_sleep_max < interval_seconds
                   /\ non_terminal (server (count_posts w) rq) = true
                   /\ poll w = (Raise ExcOverflowError, w ++ [EvPost rq])))).
Proof.
  unfold poll_qr_status. rewrite ids. simpl negb. cbv iota.
  destruct (poll_loop_outcomes (Z.to_nat max_attempts) w)
    as [k [Hk [Hfirst Hend]]].
  exists k. split; [exact Hk|]. split; [exact Hfirst|].
  destruct Hend as [[-> Hl]|Hend]; [left; auto|right; exact Hend].
Qed.

(** X5.  With a budget that is not positive the poll makes no query, does
    not sleep, and returns [None] at once. *)
Theorem poll_without_budget (w : world) :
  max_attempts <= 0 -> poll w = (Return PNone, w).
Proof.
  intros H. unfold poll_qr_status. rewrite ids.
  replace (Z.to_nat max_attempts) with 0%nat by lia. reflexivity.
Qed.

(** X6.  What the poll returns is [None] or a mapping that the server sent
    in answer to one of the queries of the budget, with error code 0 and
    status ACWP or RJCT: a pending answer is never returned. *)
Theorem poll_returns_none_or_final (v : pyval) (w : world) :
  fst (poll w) = Return v ->
  v = PNone
  \/ exists d k,
       v = PDict d /\ (k < Z.to_nat max_attempts)%nat
       /\ server (count_posts w + k) rq <> ConnectionFailed
       /\ success_body (server (count_posts w + k) rq) = Some d
       /\ error_code_nonzero d = false
       /\ is_final d = true.
Proof.
  intros H. destruct (poll_outcomes w) as [k [Hk [Hfirst Hend]]].
  destruct Hend
    as [[_ Hl]
       |[Hlt [[d [Hd [Hf Hl]]]|[[e [_ [_ Hl]]]|[_ [_ [_ Hl]]]]]]];
    rewrite Hl in H; simpl in H.
  - injection H as <-. now left.
  - injection H as <-. right. exists d, k.
    split; [reflexivity|]. split; [exact Hlt|].
    revert Hd. unfold success_body.
    destruct (server (count_posts w + k) rq)
      as [|st [[ | b | z | s | l | d']|]|class_name];
      try discriminate.
    destruct (http_error st); [discriminate|]. simpl.
    destruct (error_code_nonzero d') eqn:He; [discriminate|].
    intros Hd. injection Hd as <-. repeat split; auto. discriminate.
  - discriminate.
  - discriminate.
Qed.

(** X7.  When the poll returns [None], the budget is spent: every one of
    the [max_attempts] queries was made and answered with a status that is
    not final or with an API error, and each was followed by a sleep. *)
Theorem poll_none_means_budget_spent (w : world) :
  fst (poll w) = Return PNone ->
  snd (poll w)
  = w ++ cycles rq (Z.max interval_seconds 10) (Z.to_nat max_attempts)
  /\ forall i, (i < Z.to_nat max_attempts)%nat ->
       non_terminal (server (count_posts w + i) rq) = true.
Proof.
  intros H. destruct (poll_outcomes w) as [k [Hk [Hfirst Hend]]].
  destruct Hend
    as [[-> Hl]
       |[Hlt [[d [Hd [Hf Hl]]]|[[e [_ [_ Hl]]]|[_ [_ [_ Hl]]]]]]];
    rewrite Hl in H; simpl in H; try discriminate.
  rewrite Hl. split; [reflexivity|exact Hfirst].
Qed.

(** X8.  An exception that leaves the poll is never the client's own
    [AlfaBankSBPClientError]: API errors are all absorbed.  It leaves after
    a query that no sleep follows, and it is either the failure that
    [_send_request] raised for that query, every query before it having
    been absorbed or not final, or the [OverflowError] of the first sleep,
    when the interval is more than [time.sleep] accepts and the first
    answer was not final or was an API error. *)
Theorem poll_raises_no_api_error (e : exn) (w : world) :
  fst (poll w) = Raise e ->
  isinstance_AlfaBankSBPClientError e = false
  /\ exists k,
       (k < Z.to_nat max_attempts)%nat
       /\ snd (poll w)
          = w ++ cycles rq (Z.max interval_seconds 10) k ++ [EvPost rq]
       /\ (fst (_send_request server self
                  (get_qr_status_data self qrc_id payrrn None) ""
                  (w ++ cycles rq (Z.max interval_seconds 10) k)) = Raise e
           \/ (e = ExcOverflowError /\ k = 0%nat
               /\ time_sleep_max < interval_seconds
               /\ non_terminal (server (count_posts w) rq) = true)).
Proof.
  intros H. destruct (poll_outcomes w) as [k [Hk [Hfirst Hend]]].
  destruct Hend
    as [[_ Hl]
       |[Hlt [[d [Hd [Hf Hl]]]
             |[[e' [He [Hi Hl]]]|[-> [Hbig [Hnt Hl]]]]]]];
    rewrite Hl in H; simpl in H; try discriminate.
  - injection H as <-. split; [exact Hi|]. exists k.
    split; [exact Hlt|]. rewrite Hl. split; [reflexivity|]. left.
    rewrite send_request_run, count_posts_app, count_posts_cycles.
    exact He.
  - injection H as <-. split; [reflexivity|]. exists 0%nat.
    split; [exact Hlt|]. rewrite Hl. split; [reflexivity|]. right. auto.
Qed.

(** X15.  With an interval of more than 9223372036 seconds, which
    [time.sleep] refuses, a poll whose first query is answered with a
    status that is not final, or with an API error, raises the
    [OverflowError] of the sleep after that one query: it does not sleep
    and makes no second query. *)
Theorem poll_interval_overflow (w : world) :
  time_sleep_max < interval_seconds ->
  0 < max_attempts ->
  non_terminal (server (count_posts w) rq) = true ->
  poll w = (Raise ExcOverflowError, w ++ [EvPost rq]).
Proof.
  intros Hbig Hpos Hnt.
  rewrite (poll_is_loop server self qrc_id payrrn max_attempts
             interval_seconds ids w).
  destruct (Z.to_nat max_attempts) as [|n] eqn:Hn; [lia|].
  cbn [poll_loop]. unfold bind.
  now rewrite (poll_attempt_overflow server self qrc_id payrrn
                 interval_seconds ids w Hbig Hnt).
Qed.

End MorePoll.

(** X9.  Whatever the arguments and the server, what a poll adds to the
    trace is a number of rounds within the budget, each a status query
    followed at once by a sleep of max(interval_seconds, 10) seconds, and
    then possibly one more query, still within the budget, that no sleep
    follows.  Every query is the same status query, with no message
    identifier, and the poll does nothing else. *)
Theorem poll_never_exceeds_budget (qrc_id payrrn : option string)
    (max_attempts interval_seconds : Z) (w : world) :
  exists k t,
    snd (poll_qr_status server self qrc_id payrrn max_attempts
           interval_seconds w) = w ++ t
    /\ (k <= Z.to_nat max_attempts)%nat
    /\ (t = cycles (status_request self qrc_id payrrn)
              (Z.max interval_seconds 10) k
        \/ ((k < Z.to_nat max_attempts)%nat
            /\ t = cycles (status_request self qrc_id payrrn)
                     (Z.max interval_seconds 10) k
                   ++ [EvPost (status_request self qrc_id payrrn)]))
    /\ (count_posts t <= Z.to_nat max_attempts)%nat.
Proof.
  set (rq := status_request self qrc_id payrrn).
  set (m := Z.max interval_seconds 10).
  destruct (truthy qrc_id || truthy payrrn) eqn:ids.
  - destruct (poll_outcomes qrc_id payrrn max_attempts interval_seconds ids w)
      as [k [Hk [_ Hend]]]. fold rq in Hend. fold m in Hend.
    destruct Hend
      as [[_ Hl]
         |[Hlt [[d [_ [_ Hl]]]|[[e [_ [_ Hl]]]|[-> [_ [_ Hl]]]]]]];
      rewrite Hl; cbn [snd].
    + exists k, (cycles rq m k). rewrite count_posts_cycles. auto.
    + exists k, (cycles rq m k ++ [EvPost rq]).
      rewrite count_posts_app, count_posts_cycles.
      change (count_posts [EvPost rq]) with 1%nat.
      split; [reflexivity|]. split; [exact Hk|]. split; [auto|lia].
    + exists k, (cycles rq m k ++ [EvPost rq]).
      rewrite count_posts_app, count_posts_cycles.
      change (count_posts [EvPost rq]) with 1%nat.
      split; [reflexivity|]. split; [exact Hk|]. split; [auto|lia].
    + exists 0%nat, [EvPost rq].
      change (count_posts [EvPost rq]) with 1%nat.
      split; [reflexivity|]. split; [lia|]. split; [right; auto|lia].
  - exists 0%nat, []. unfold poll_qr_status. rewrite ids. simpl.
    rewrite app_nil_r. change (count_posts []) with 0%nat.
    split; [reflexivity|]. split; [lia|]. split; [left; reflexivity|lia].
Qed.

End MoreRuns.

(** ** The serialisation *)

Lemma to_int_not_nil (z : Z) :
  Z.to_int z <> Decimal.Pos Decimal.Nil /\ Z.to_int z <> Decimal.Neg Decimal.Nil.
Proof.
  destruct z as [|p|p]; simpl; split; try discriminate;
    intros H; injection H as H; now apply Unsigned.to_uint_nonnil in H.
Qed.

Lemma py_str_int_inj (a b : Z) : py_str_int a = py_str_int b -> a = b.
Proof.
  unfold py_str_int. intros H. apply DecimalZ.to_int_inj.
  destruct (to_int_not_nil a) as [Ha1 Ha2].
  destruct (to_int_not_nil b) as [Hb1 Hb2].
  pose proof (NilZero.isi _ Ha1 Ha2) as Ea.
  pose proof (NilZero.isi _ Hb1 Hb2) as Eb.
  rewrite H in Ea. rewrite Ea in Eb. now injection Eb.
Qed.

(** X10.  The amount goes into the request of [get_qr_code] as its decimal
    text, from which it can be read back: requests with equal amount fields
    were made for equal amounts. *)
Theorem get_qr_code_amount_text (self : AlfaBankSBPClient) (a b : Z)
    (c q c' q' : string)
    (pp ttl nu ru wd ht onum mid sf sid sb ssi ssn
     pp' ttl' nu' ru' wd' ht' onum' mid' sf' sid' sb' ssi' ssn'
       : option string) :
  dict_get (get_qr_code_data self a c q pp ttl nu ru wd ht onum mid sf sid
              sb ssi ssn) "amount" = Some (PStr (py_str_int a))
  /\ NilZero.int_of_string (py_str_int a) = Some (Z.to_int a)
  /\ (dict_get (get_qr_code_data self a c q pp ttl nu ru wd ht onum mid sf
                  sid sb ssi ssn) "amount"
      = dict_get (get_qr_code_data self b c' q' pp' ttl' nu' ru' wd' ht'
                    onum' mid' sf' sid' sb' ssi' ssn') "amount"
      -> a = b).
Proof.
  assert (H : forall x y z u1 u2 u3 u4 u5 u6 u7 u8 u9 u10 u11 u12 u13,
            dict_get (get_qr_code_data self x y z u1 u2 u3 u4 u5 u6 u7 u8 u9
                        u10 u11 u12 u13) "amount"
            = Some (PStr (py_str_int x))).
  { intros. unfold get_qr_code_data. destruct (py_any _); reflexivity. }
  rewrite !H. split; [reflexivity|]. split.
  - destruct (to_int_not_nil a) as [Ha1 Ha2]. apply (NilZero.isi _ Ha1 Ha2).
  - intros E. injection E as E. now apply py_str_int_inj.
Qed.

Lemma printable_app (a b : string) :
  printable (a ++ b)%string = printable a && printable b.
Proof.
  induction a as [|c a IH]; [reflexivity|].
  simpl. rewrite IH. now rewrite andb_assoc.
Qed.

Lemma escape_char_printable (c : ascii) : printable (escape_char c) = true.
Proof. destruct c as [[] [] [] [] [] [] [] []]; reflexivity. Qed.

Lemma escape_string_printable (s : string) :
  printable (escape_string s) = true.
Proof.
  induction s as [|c s IH]; [reflexivity|].
  simpl. now rewrite printable_app, escape_char_printable, IH.
Qed.

Lemma encode_basestring_printable (s : string) :
  printable (encode_basestring s) = true.
Proof.
  unfold encode_basestring. simpl.
  now rewrite printable_app, escape_string_printable.
Qed.

Lemma string_of_uint_printable (d : Decimal.uint) :
  printable (NilEmpty.string_of_uint d) = true.
Proof. induction d; simpl; auto. Qed.

Lemma py_str_int_printable (z : Z) : printable (py_str_int z) = true.
Proof.
  unfold py_str_int, NilZero.string_of_int, NilZero.string_of_uint.
  destruct (Z.to_int z) as [d|d]; destruct d; simpl;
    try reflexivity; apply string_of_uint_printable.
Qed.

(** X11.  The text [json.dumps] produces holds no control character
    (nothing below 0x20), whatever the value: line breaks, tabs and the
    like inside a text are escaped, so the body of a request is a single
    line. *)
Theorem json_dumps_printable : forall v : pyval,
  printable (json_dumps v) = true.
Proof.
  fix IH 1. intros [ | b | z | s | l | d].
  - reflexivity.
  - destruct b; reflexivity.
  - apply py_str_int_printable.
  - apply encode_basestring_printable.
  - change (json_dumps (PList l))
      with ("[" ++
            (fix items (l : list pyval) : string :=
               match l with
               | [] => ""
               | x :: r =>
                   json_dumps x ++
                   match r with [] => "" | _ :: _ => ", " ++ items r end
               end) l ++ "]")%string.
    rewrite !printable_app. simpl. rewrite andb_true_r.
    match goal with |- printable (?F l) = true => set (items := F) end.
    induction l as [|x r IHl]; [reflexivity|].
    change (items (x :: r))
      with (json_dumps x ++
            match r with [] => "" | _ :: _ => ", " ++ items r end)%string.
    rewrite printable_app, (IH x).
    destruct r as [|y r']; [reflexivity|]. exact IHl.
  - change (json_dumps (PDict d))
      with ("{" ++
            (fix items (d : list (string * pyval)) : string :=
               match d with
               | [] => ""
               | (k, x) :: r =>
                   encode_basestring k ++ ": " ++ json_dumps x ++
                   match r with [] => "" | _ :: _ => ", " ++ items r end
               end) d ++ "}")%string.
    rewrite !printable_app. simpl. rewrite andb_true_r.
    match goal with |- printable (?F d) = true => set (items := F) end.
    induction d as [|[k x] r IHd]; [reflexivity|].
    change (items ((k, x) :: r))
      with (encode_basestring k ++ ": " ++ json_dumps x ++
            match r with [] => "" | _ :: _ => ", " ++ items r end)%string.
    rewrite !printable_app, encode_basestring_printable, (IH x).
    destruct r as [|y r']; [reflexivity|]. exact IHd.
Qed.

Lemma unescape_escape_char (c : ascii) (r : string) :
  unescape_string (escape_char c ++ r)%string = String c (unescape_string r).
Proof. destruct c as [[] [] [] [] [] [] [] []]; reflexivity. Qed.

Lemma unescape_escape_string (s : string) :
  unescape_string (escape_string s) = s.
Proof.
  induction s as [|c s IH]; [reflexivity|].
  simpl. now rewrite unescape_escape_char, IH.
Qed.

Lemma length_append (a b : string) :
  String.length (a ++ b)%string = (String.length a + String.length b)%nat.
Proof. induction a as [|c a IH]; simpl; [reflexivity|now rewrite IH]. Qed.

Lemma append_inj_r (a b c : string) :
  (a ++ c = b ++ c)%string -> a = b.
Proof.
  intros H.
  assert (Hlen : String.length a = String.length b).
  { apply (f_equal String.length) in H.
    rewrite !length_append in H. lia. }
  revert b H Hlen. induction a as [|x a IH]; intros [|y b] H Hlen;
    try discriminate; [reflexivity|].
  simpl in H. injection H as -> H. f_equal. apply IH; [exact H|].
  simpl in Hlen. lia.
Qed.

(** X12.  The JSON text of a string determines the string: the escapes can
    be undone, so two different texts never serialise to the same bytes. *)
Theorem json_dumps_string_inj (s t : string) :
  unescape_string (escape_string s) = s
  /\ (json_dumps (PStr s) = json_dumps (PStr t) -> s = t)
  /\ (encode_utf8 (json_dumps (PStr s)) = encode_utf8 (json_dumps (PStr t))
      -> s = t).
Proof.
  split; [apply unescape_escape_string|].
  assert (H : json_dumps (PStr s) = json_dumps (PStr t) -> s = t).
  { simpl. unfold encode_basestring. intros E. injection E as E.
    apply append_inj_r in E.
    rewrite <- (unescape_escape_string s), <- (unescape_escape_string t).
    now rewrite E. }
  split; [exact H|].
  intros E. apply H. unfold encode_utf8 in E.
  rewrite <- (string_of_list_byte_of_string (json_dumps (PStr s))),
          <- (string_of_list_byte_of_string (json_dumps (PStr t))).
  now rewrite E.
Qed.

(** ** The signature text *)

Lemma b64_digit_ok (n : N) : (n < 64)%N -> is_b64_byte (b64_digit n) = true.
Proof.
  intros H. unfold b64_digit.
  assert (Hn : (N.to_nat n < 64)%nat) by lia.
  generalize dependent (N.to_nat n). clear. intros k Hk.
  do 64 (destruct k as [|k]; [reflexivity|]). lia.
Qed.

Lemma b64encode_ok (l : bytes) :
  forallb is_b64_byte (b64encode l) = true
  /\ List.length (b64encode l) = (4 * ((List.length l + 2) / 3))%nat.
Proof.
  assert (H : forall n l, (List.length l <= n)%nat ->
            forallb is_b64_byte (b64encode l) = true
            /\ List.length (b64encode l)
               = (4 * ((List.length l + 2) / 3))%nat).
  { clear l. induction n as [|n IH]; intros l Hl.
    - destruct l; [split; reflexivity|simpl in Hl; lia].
    - destruct l as [|a [|b [|c r]]].
      + split; reflexivity.
      + pose proof (Byte.to_N_bounded a). split; [|reflexivity].
        cbn [b64encode forallb]. rewrite !b64_digit_ok; [reflexivity| |].
        * assert (Byte.to_N a mod 4 < 4)%N by (apply N.mod_lt; lia). lia.
        * apply N.Div0.div_lt_upper_bound. lia.
      + pose proof (Byte.to_N_bounded a). pose proof (Byte.to_N_bounded b).
        split; [|reflexivity].
        cbn [b64encode forallb]. rewrite !b64_digit_ok; [reflexivity| | |].
        * assert ((Byte.to_N a * 256 + Byte.to_N b) mod 16 < 16)%N
            by (apply N.mod_lt; lia). lia.
        * apply N.mod_lt. lia.
        * apply N.Div0.div_lt_upper_bound. lia.
      + pose proof (Byte.to_N_bounded a). pose proof (Byte.to_N_bounded b).
        pose proof (Byte.to_N_bounded c).
        destruct (IH r) as [IH1 IH2]; [simpl in Hl; lia|].
        split.
        * cbn [b64encode forallb]. rewrite IH1.
          rewrite !b64_digit_ok; [reflexivity| | | |];
            try (apply N.mod_lt; lia).
          apply N.Div0.div_lt_upper_bound. lia.
        * cbn [b64encode List.length]. rewrite IH2.
          replace (S (S (S (List.length r))) + 2)%nat
            with (1 * 3 + (List.length r + 2))%nat by lia.
          rewrite Nat.div_add_l by lia. lia. }
  apply (H (List.length l)). lia.
Qed.

(** X13.  The Authorization value that [_sign_data] produces is base64
    text: every byte is a letter, a digit, [+], [/] or the padding [=], and
    its length is four bytes for every three bytes of signature, rounded
    up. *)
Theorem sign_data_is_base64_text (self : AlfaBankSBPClient) (data : bytes) :
  forallb is_b64_byte (_sign_data self data) = true
  /\ List.length (_sign_data self data)
     = (4 * ((List.length (sign (_private_key self) data) + 2) / 3))%nat.
Proof. unfold _sign_data. apply b64encode_ok. Qed.

(** ** queryData *)

(** X14.  [get_qr_code] called with a notification URL or a sender field
    that is not empty nests the four of them under queryData, unset ones as
    [None]; called with the four of them unset or empty, it builds no
    queryData at all.  [perform_reversal] always sends queryData, with the
    notification URL alone, [None] when unset. *)
Theorem get_qr_code_query_data_rule (self : AlfaBankSBPClient) (a : Z)
    (c q : string)
    (pp ttl nu ru wd ht onum mid sf sid sb ssi ssn : option string) :
  let d := get_qr_code_data self a c q pp ttl nu ru wd ht onum mid sf sid sb
             ssi ssn in
  (truthy nu || truthy sf || truthy sid || truthy sb = true ->
   dict_get d "queryData"
   = Some (PDict [("notificationUrl", opt_str nu); ("SenderFIO", opt_str sf);
                  ("SenderID", opt_str sid); ("SenderBankBIC", opt_str sb)]))
  /\ (truthy nu || truthy sf || truthy sid || truthy sb = false ->
      dict_get d "queryData" = None)
  /\ (forall qi p t dt am cu mi rra,
        dict_get (perform_reversal_data self qi p t dt am cu mi nu rra)
          "queryData"
        = Some (PDict [("notificationUrl", opt_str nu)])).
Proof.
  intros d. subst d. unfold get_qr_code_data, py_any. simpl existsb.
  rewrite orb_false_r, !orb_assoc.
  destruct (truthy nu || truthy sf || truthy sid || truthy sb);
    (split; [|split]); intros; try discriminate; reflexivity.
Qed.

(** ** The further properties on concrete runs *)

(** X5 with a budget of -3. *)
Lemma poll_without_budget_witness :
  poll_qr_status pending_then_accepted demo_client (Some "QR1") None (-3) 1 []
  = (Return PNone, []).
Proof.
  refine (poll_without_budget pending_then_accepted demo_client (Some "QR1")
            None (-3) 1 eq_refl [] _).
  lia.
Defined.

(** X6 on the sequence PDNG, PDNG, ACWP. *)
Lemma poll_returns_none_or_final_witness :
  PDict (status_reply "ACWP") = PNone
  \/ exists d k,
       PDict (status_reply "ACWP") = PDict d /\ (k < Z.to_nat 3)%nat
       /\ pending_then_accepted (count_posts [] + k) demo_query
          <> ConnectionFailed
       /\ success_body (pending_then_accepted (count_posts [] + k) demo_query)
          = Some d
       /\ error_code_nonzero d = false
       /\ is_final d = true.
Proof.
  exact (poll_returns_none_or_final pending_then_accepted demo_client
           (Some "QR1") None 3 1 eq_refl (PDict (status_reply "ACWP")) []
           eq_refl).
Defined.

(** X7 on a sequence that never reaches a final status. *)
Lemma poll_none_means_budget_spent_witness :
  snd (poll_qr_status always_pending demo_client (Some "QR1") None 3 1 [])
  = [] ++ cycles demo_query (Z.max 1 10) (Z.to_nat 3)
  /\ forall i, (i < Z.to_nat 3)%nat ->
       non_terminal (always_pending (count_posts [] + i) demo_query) = true.
Proof.
  exact (poll_none_means_budget_spent always_pending demo_client
           (Some "QR1") None 3 1 eq_refl [] eq_refl).
Defined.

(** X8 on a server whose first answer is an HTTP 500. *)
Lemma poll_raises_no_api_error_witness :
  isinstance_AlfaBankSBPClientError (ExcHTTPError 500) = false
  /\ exists k,
       (k < Z.to_nat 3)%nat
       /\ snd (poll_qr_status failing_once demo_client (Some "QR1") None 3 1
                 [])
          = [] ++ cycles demo_query (Z.max 1 10) k ++ [EvPost demo_query]
       /\ (fst (_send_request failing_once demo_client
                  (get_qr_status_data demo_client (Some "QR1") None None) ""
                  ([] ++ cycles demo_query (Z.max 1 10) k))
           = Raise (ExcHTTPError 500)
           \/ (ExcHTTPError 500 = ExcOverflowError /\ k = 0%nat
               /\ time_sleep_max < 1
               /\ non_terminal (failing_once (count_posts []) demo_query)
                  = true)).
Proof.
  exact (poll_raises_no_api_error failing_once demo_client (Some "QR1") None
           3 1 eq_refl (ExcHTTPError 500) [] eq_refl).
Defined.

(** X15 on an interval of 9223372037 seconds and a pending first answer. *)
Lemma poll_interval_overflow_witness :
  poll_qr_status always_pending demo_client (Some "QR1") None 3 9223372037 []
  = (Raise ExcOverflowError, [EvPost demo_query]).
Proof.
  exact (poll_interval_overflow always_pending demo_client (Some "QR1") None
           3 9223372037 eq_refl [] eq_refl eq_refl eq_refl).
Defined.
